(** * bwnodejs: the SQL repository class [sqlFunctions] (src/sql.js)

    The class builds one statement template and one bound-argument list per
    method and hands both to [query], which forwards them to the MySQL pool.
    The methods are embedded over an abstract executor (the [this.query] of
    the class); the store's reading of each template used by the class is
    given by [pool_query].

    Modelling conventions for the store, which lives outside the repository:
    - a table is the list of its rows in store-default order;
    - the columns are NOT NULL; [pool_query] is the store without any
      constraint, trigger or foreign key, and the section on the schema
      takes the foreign key from statistics to users as a parameter;
    - the collation of the text columns is a parameter [fold], the map that
      sends a character to its collation representative (the identity for a
      binary collation, lower-casing for a case-insensitive one).

    The Express layer of the later api.js (router, guards, validation of an
    account and the handlers that call the class) follows the class. *)

From Stdlib Require Import ZArith Ascii Lia.
From stdpp Require Import base decidable numbers list strings sorting.

(** ** Rows, request bodies and bound values *)

Record date := mkDate { year : Z; month : Z; day : Z }.

Module User.
Record t := mk {
    id : Z;
    username : string;
    password : string;
    first_name : string;
    last_name : string
}.
End User.

Module Statistic.
Record t := mk {
    id : Z;
    user_id : Z;
    kills : Z;
    date : date
}.
End Statistic.

(** The [data] object of [createUser]/[updateUser]. *)
Module UserData.
Record t := mk {
    username : string;
    password : string;
    first_name : string;
    last_name : string
}.
End UserData.

(** The [data] object of [createStatistic]/[updateStatistic]. *)
Module StatisticData.
Record t := mk {
    user_id : Z;
    kills : Z;
    date : date
}.
End StatisticData.

(** A value bound to a [?] placeholder. *)
Inductive value :=
  | VInt (n : Z)
  | VStr (s : string)
  | VDate (d : date).

#[global] Instance date_eq_dec : EqDecision date.
Proof. solve_decision. Defined.
#[global] Instance user_eq_dec : EqDecision User.t.
Proof. solve_decision. Defined.
#[global] Instance statistic_eq_dec : EqDecision Statistic.t.
Proof. solve_decision. Defined.
#[global] Instance value_eq_dec : EqDecision value.
Proof. solve_decision. Defined.

(** ** The store *)

Record store := mkStore {
  users : list User.t;
  statistics : list Statistic.t;
  next_user_id : Z;          (* AUTO_INCREMENT counter of users.id *)
  next_statistic_id : Z      (* AUTO_INCREMENT counter of statistics.id *)
}.

(** What the driver passes to the callback as [rows]: a row list for a
    SELECT, an acknowledgement packet for INSERT, UPDATE and DELETE. *)
Record ok_packet := mkOk { affectedRows : nat; insertId : Z }.

Inductive rows :=
  | UserRows (l : list User.t)
  | StatisticRows (l : list Statistic.t)
  | OkPacket (p : ok_packet).

(** The two arguments [(err, rows)] of the pool callback. *)
Inductive callback :=
  | Err (err : string)
  | Rows (r : rows).

(** The settled promise returned by [query]. *)
Inductive promise :=
  | Resolved (r : rows)
  | Rejected (err : string).

(** ** Dates: calendar order *)

Definition date_leb (a b : date) : bool :=
  (year a <? year b)%Z
  || ((year a =? year b)%Z
      && ((month a <? month b)%Z
          || ((month a =? month b)%Z && (day a <=? day b)%Z))).

Definition date_le (a b : date) : Prop :=
  (year a < year b)%Z
  ∨ (year a = year b
     ∧ ((month a < month b)%Z ∨ (month a = month b ∧ (day a <= day b)%Z))).

#[global] Instance date_le_dec a b : Decision (date_le a b).
Proof. unfold date_le. apply _. Defined.

(** ** Strings under a collation *)

Definition chars (s : string) : list ascii := String.list_ascii_of_string s.

(** [f] occurs in [h] as a literal substring. *)
Definition substring_of (f h : string) : Prop :=
  ∃ pre post : list ascii, chars h = pre ++ chars f ++ post.

Fixpoint lex_leb (a b : list N) : bool :=
  match a, b with
  | [], _ => true
  | _ :: _, [] => false
  | x :: a', y :: b' => (x <? y)%N || ((x =? y)%N && lex_leb a' b')
  end.

(** Literals of the LIKE pattern language. *)
Definition percent : ascii := "%"%char.
Definition underscore : ascii := "_"%char.
Definition backslash : ascii := "\"%char.

Inductive like_token :=
  | LikeChar (c : ascii)     (* this character *)
  | LikeOne                  (* [_]: exactly one character *)
  | LikeAny.                 (* [%]: any run of characters *)

(** Reading of a LIKE pattern with the default escape character [\]. *)
Fixpoint like_tokens (p : list ascii) : list like_token :=
  match p with
  | [] => []
  | c :: p' =>
      if Ascii.eqb c percent then LikeAny :: like_tokens p'
      else if Ascii.eqb c underscore then LikeOne :: like_tokens p'
      else if Ascii.eqb c backslash then
        match p' with
        | [] => [LikeChar c]
        | e :: p'' => LikeChar e :: like_tokens p''
        end
      else LikeChar c :: like_tokens p'
  end.

(** The fragment with no character in it. *)
Definition empty_fragment : string := EmptyString.

(** A fragment free of LIKE metacharacters. *)
Definition plain_char (c : ascii) : bool :=
  negb (Ascii.eqb c percent) && negb (Ascii.eqb c underscore)
  && negb (Ascii.eqb c backslash).

Definition plain (f : string) : bool := forallb plain_char (chars f).

Section Collation.
Variable fold : ascii → ascii.

Definition sort_key (s : string) : list N :=
  (λ c, N_of_ascii (fold c)) <$> chars s.

(** [a] sorts before or with [b]. *)
Definition collate_le (a b : string) : Prop :=
  lex_leb (sort_key a) (sort_key b) = true.

(** [f] occurs in [h] up to the collation. *)
Definition contains (h f : string) : Prop :=
  ∃ pre mid post : list ascii,
    chars h = pre ++ mid ++ post ∧ fold <$> mid = fold <$> chars f.

Fixpoint like_match (p : list like_token) (s : list ascii) {struct p} : bool :=
  match p with
  | [] => match s with [] => true | _ :: _ => false end
  | LikeChar c :: p' =>
      match s with
      | [] => false
      | a :: s' => Ascii.eqb (fold c) (fold a) && like_match p' s'
      end
  | LikeOne :: p' =>
      match s with
      | [] => false
      | _ :: s' => like_match p' s'
      end
  | LikeAny :: p' =>
      (fix skip (s : list ascii) : bool :=
         like_match p' s
         || match s with [] => false | _ :: s' => skip s' end) s
  end.

(** [s LIKE pattern]. *)
Definition like (s pattern : string) : bool :=
  like_match (like_tokens (chars pattern)) (chars s).

Definition username_le (u v : User.t) : Prop :=
  collate_le (User.username u) (User.username v).

#[global] Instance username_le_dec u v : Decision (username_le u v).
Proof. unfold username_le, collate_le. apply _. Defined.

(** [ORDER BY username ASC]. *)
Definition order_by_username (l : list User.t) : list User.t :=
  merge_sort username_le l.
End Collation.

(** ** The store's reading of the statements *)

Definition set_user (data : UserData.t) (r : User.t) : User.t :=
  User.mk (User.id r) (UserData.username data) (UserData.password data)
    (UserData.first_name data) (UserData.last_name data).

Definition set_statistic (data : StatisticData.t) (r : Statistic.t) : Statistic.t :=
  Statistic.mk (Statistic.id r) (StatisticData.user_id data)
    (StatisticData.kills data) (StatisticData.date data).

Definition ack (n : nat) : callback := Rows (OkPacket (mkOk n 0)).

(** [INSERT INTO users (username, password, first_name, last_name) VALUES ...] *)
Definition insert_user (data : UserData.t) (db : store) : callback * store :=
  let i := next_user_id db in
  (Rows (OkPacket (mkOk 1 i)),
   mkStore
     (users db ++ [User.mk i (UserData.username data) (UserData.password data)
                     (UserData.first_name data) (UserData.last_name data)])
     (statistics db) (i + 1)%Z (next_statistic_id db)).

(** [UPDATE users SET ... WHERE id = ?]; [affectedRows] counts the rows the
    WHERE clause finds. *)
Definition update_user (i : Z) (data : UserData.t) (db : store) : callback * store :=
  (ack (length (filter (λ r, User.id r = i) (users db))),
   mkStore ((λ r, if decide (User.id r = i) then set_user data r else r) <$> users db)
     (statistics db) (next_user_id db) (next_statistic_id db)).

(** [DELETE FROM users WHERE id = ?] *)
Definition delete_user (i : Z) (db : store) : callback * store :=
  (ack (length (filter (λ r, User.id r = i) (users db))),
   mkStore (filter (λ r, User.id r ≠ i) (users db))
     (statistics db) (next_user_id db) (next_statistic_id db)).

(** [INSERT INTO statistics (user_id, kills, date) VALUES ...] *)
Definition insert_statistic (data : StatisticData.t) (db : store) : callback * store :=
  let i := next_statistic_id db in
  (Rows (OkPacket (mkOk 1 i)),
   mkStore (users db)
     (statistics db ++ [Statistic.mk i (StatisticData.user_id data)
                          (StatisticData.kills data) (StatisticData.date data)])
     (next_user_id db) (i + 1)%Z).

(** [UPDATE statistics SET ... WHERE id = ?] *)
Definition update_statistic (i : Z) (data : StatisticData.t) (db : store)
  : callback * store :=
  (ack (length (filter (λ r, Statistic.id r = i) (statistics db))),
   mkStore (users db)
     ((λ r, if decide (Statistic.id r = i) then set_statistic data r else r)
        <$> statistics db)
     (next_user_id db) (next_statistic_id db)).

(** [DELETE FROM statistics WHERE id = ?] *)
Definition delete_statistic (i : Z) (db : store) : callback * store :=
  (ack (length (filter (λ r, Statistic.id r = i) (statistics db))),
   mkStore (users db) (filter (λ r, Statistic.id r ≠ i) (statistics db))
     (next_user_id db) (next_statistic_id db)).

(** [... LIMIT ? OFFSET ?]: a negative count is a syntax error. *)
Definition limit_offset {A} (limit offset : Z) (l : list A) : option (list A) :=
  if decide (0 ≤ limit ∧ 0 ≤ offset)%Z
  then Some (take (Z.to_nat limit) (drop (Z.to_nat offset) l))
  else None.

(** [date BETWEEN ? AND ?] is [? <= date AND date <= ?]. *)
Definition between (d lo hi : date) : bool := date_leb lo d && date_leb d hi.

(** [GROUP BY user_id]: one group per distinct [user_id] among the rows. *)
Definition group_keys (stats : list Statistic.t) : list Z :=
  remove_dups (Statistic.user_id <$> stats).

Definition group_rows (k : Z) (stats : list Statistic.t) : list Statistic.t :=
  filter (λ r, Statistic.user_id r = k) stats.

(** [SUM(kills)] over a list of rows. *)
Definition sum_kills (l : list Statistic.t) : Z :=
  foldr (λ r acc, Statistic.kills r + acc)%Z 0%Z l.

(** [SELECT user_id FROM statistics GROUP BY user_id HAVING SUM(kills) < ?] *)
Definition having_sum_below (t : Z) (stats : list Statistic.t) : list Z :=
  filter (λ k, (sum_kills (group_rows k stats) < t)%Z) (group_keys stats).

(** [DELETE FROM users WHERE id IN (SELECT ...)] *)
Definition delete_users_below (t : Z) (db : store) : callback * store :=
  let ids := having_sum_below t (statistics db) in
  (ack (length (filter (λ r, User.id r ∈ ids) (users db))),
   mkStore (filter (λ r, User.id r ∉ ids) (users db))
     (statistics db) (next_user_id db) (next_statistic_id db)).

Definition ER_PARSE_ERROR : string := "ER_PARSE_ERROR".
Definition ER_WRONG_ARGUMENTS : string := "ER_WRONG_ARGUMENTS".

Section Pool.
Variable fold : ascii → ascii.

(** [this.pool.query(sql, args, callback)]: the store runs the statement and
    the callback receives [(err, rows)]. Only the statements of this
    repository are read; any other text is a parse error. *)
Definition pool_query (sql : string) (args : list value) (db : store)
  : callback * store :=
  if String.eqb sql "INSERT INTO users (username, password, first_name, last_name) VALUES (?, ?, ?, ?)" then
    match args with
    | [VStr u; VStr p; VStr f; VStr l] => insert_user (UserData.mk u p f l) db
    | _ => (Err ER_WRONG_ARGUMENTS, db)
    end
  else if String.eqb sql "UPDATE users SET username = ?, password = ?, first_name = ?, last_name = ? WHERE id = ?" then
    match args with
    | [VStr u; VStr p; VStr f; VStr l; VInt i] => update_user i (UserData.mk u p f l) db
    | _ => (Err ER_WRONG_ARGUMENTS, db)
    end
  else if String.eqb sql "DELETE FROM users WHERE id = ?" then
    match args with
    | [VInt i] => delete_user i db
    | _ => (Err ER_WRONG_ARGUMENTS, db)
    end
  else if String.eqb sql "SELECT * FROM users" then
    match args with
    | [] => (Rows (UserRows (users db)), db)
    | _ => (Err ER_WRONG_ARGUMENTS, db)
    end
  else if String.eqb sql "SELECT * FROM users ORDER BY username ASC" then
    match args with
    | [] => (Rows (UserRows (order_by_username fold (users db))), db)
    | _ => (Err ER_WRONG_ARGUMENTS, db)
    end
  else if String.eqb sql "INSERT INTO statistics (user_id, kills, date) VALUES (?, ?, ?)" then
    match args with
    | [VInt u; VInt k; VDate d] => insert_statistic (StatisticData.mk u k d) db
    | _ => (Err ER_WRONG_ARGUMENTS, db)
    end
  else if String.eqb sql "UPDATE statistics SET user_id = ?, kills = ?, date = ? WHERE id = ?" then
    match args with
    | [VInt u; VInt k; VDate d; VInt i] => update_statistic i (StatisticData.mk u k d) db
    | _ => (Err ER_WRONG_ARGUMENTS, db)
    end
  else if String.eqb sql "DELETE FROM statistics WHERE id = ?" then
    match args with
    | [VInt i] => delete_statistic i db
    | _ => (Err ER_WRONG_ARGUMENTS, db)
    end
  else if String.eqb sql "SELECT * FROM statistics" then
    match args with
    | [] => (Rows (StatisticRows (statistics db)), db)
    | _ => (Err ER_WRONG_ARGUMENTS, db)
    end
  else if String.eqb sql "SELECT * FROM statistics LIMIT ? OFFSET ?" then
    match args with
    | [VInt limit; VInt offset] =>
        match limit_offset limit offset (statistics db) with
        | Some page => (Rows (StatisticRows page), db)
        | None => (Err ER_PARSE_ERROR, db)
        end
    | _ => (Err ER_WRONG_ARGUMENTS, db)
    end
  else if String.eqb sql "SELECT * FROM statistics WHERE date = ?" then
    match args with
    | [VDate d] =>
        (Rows (StatisticRows (filter (λ r, Statistic.date r = d) (statistics db))), db)
    | _ => (Err ER_WRONG_ARGUMENTS, db)
    end
  else if String.eqb sql "SELECT * FROM statistics WHERE date BETWEEN ? AND ?" then
    match args with
    | [VDate lo; VDate hi] =>
        (Rows (StatisticRows
                 (filter (λ r, between (Statistic.date r) lo hi = true) (statistics db))),
         db)
    | _ => (Err ER_WRONG_ARGUMENTS, db)
    end
  else if String.eqb sql "SELECT * FROM users WHERE username LIKE ?" then
    match args with
    | [VStr p] =>
        (Rows (UserRows
                 (filter (λ r, like fold (User.username r) p = true) (users db))),
         db)
    | _ => (Err ER_WRONG_ARGUMENTS, db)
    end
  else if String.eqb sql "SELECT * FROM users WHERE username LIKE ? ORDER BY username ASC" then
    match args with
    | [VStr p] =>
        (Rows (UserRows
                 (order_by_username fold
                    (filter (λ r, like fold (User.username r) p = true) (users db)))),
         db)
    | _ => (Err ER_WRONG_ARGUMENTS, db)
    end
  else if String.eqb sql "
        SELECT * FROM users 
        WHERE username LIKE ? 
        AND first_name LIKE ? 
        AND last_name LIKE ? 
        ORDER BY username ASC
    " then
    match args with
    | [VStr pu; VStr pf; VStr pl] =>
        (Rows (UserRows
                 (order_by_username fold
                    (filter (λ r, like fold (User.username r) pu
                                  && like fold (User.first_name r) pf
                                  && like fold (User.last_name r) pl = true)
                       (users db)))),
         db)
    | _ => (Err ER_WRONG_ARGUMENTS, db)
    end
  else if String.eqb sql "
            DELETE FROM users 
            WHERE id IN (
                SELECT user_id 
                FROM statistics 
                GROUP BY user_id 
                HAVING SUM(kills) < ?
            )
        " then
    match args with
    | [VInt t] => delete_users_below t db
    | _ => (Err ER_WRONG_ARGUMENTS, db)
    end
  else (Err ER_PARSE_ERROR, db).

(** [query(sql, args)]: the promise rejects with [err] when the callback
    receives one and resolves with [rows] otherwise. *)
Definition query (sql : string) (args : list value) (db : store)
  : promise * store :=
  match pool_query sql args db with
  | (Err err, db') => (Rejected err, db')
  | (Rows r, db') => (Resolved r, db')
  end.
End Pool.

(** ** The class [sqlFunctions] (src/sql.js, lines 95-210)

    [query] stands for [this.query]; every method returns what it returns. *)
Section sqlFunctions.
Context {R : Type}.
Variable query : string → list value → R.

Definition createUser (data : UserData.t) : R :=
  let sql := "INSERT INTO users (username, password, first_name, last_name) VALUES (?, ?, ?, ?)" in
  query sql [VStr (UserData.username data); VStr (UserData.password data);
             VStr (UserData.first_name data); VStr (UserData.last_name data)].

Definition updateUser (id : Z) (data : UserData.t) : R :=
  let sql := "UPDATE users SET username = ?, password = ?, first_name = ?, last_name = ? WHERE id = ?" in
  query sql [VStr (UserData.username data); VStr (UserData.password data);
             VStr (UserData.first_name data); VStr (UserData.last_name data);
             VInt id].

Definition deleteUser (id : Z) : R :=
  let sql := "DELETE FROM users WHERE id = ?" in
  query sql [VInt id].

Definition getAllUsers : R :=
  let sql := "SELECT * FROM users ORDER BY username ASC" in
  query sql [].

Definition createStatistic (data : StatisticData.t) : R :=
  let sql := "INSERT INTO statistics (user_id, kills, date) VALUES (?, ?, ?)" in
  query sql [VInt (StatisticData.user_id data); VInt (StatisticData.kills data);
             VDate (StatisticData.date data)].

Definition updateStatistic (id : Z) (data : StatisticData.t) : R :=
  let sql := "UPDATE statistics SET user_id = ?, kills = ?, date = ? WHERE id = ?" in
  query sql [VInt (StatisticData.user_id data); VInt (StatisticData.kills data);
             VDate (StatisticData.date data); VInt id].

Definition deleteStatistic (id : Z) : R :=
  let sql := "DELETE FROM statistics WHERE id = ?" in
  query sql [VInt id].

Definition getAllStatistics : R :=
  let sql := "SELECT * FROM statistics" in
  query sql [].

Definition getStatisticsWithLimitOffset (limit offset : Z) : R :=
  let sql := "SELECT * FROM statistics LIMIT ? OFFSET ?" in
  query sql [VInt limit; VInt offset].

Definition searchStatisticsByDate (date : date) : R :=
  let sql := "SELECT * FROM statistics WHERE date = ?" in
  query sql [VDate date].

Definition searchStatisticsByDateRange (startDate endDate : date) : R :=
  let sql := "SELECT * FROM statistics WHERE date BETWEEN ? AND ?" in
  query sql [VDate startDate; VDate endDate].

Definition searchUserByUsername (username : string) : R :=
  let sql := "SELECT * FROM users WHERE username LIKE ? ORDER BY username ASC" in
  query sql [VStr ("%" +:+ username +:+ "%")].

Definition searchUserByDetails (username first_name last_name : string) : R :=
  let sql := "
        SELECT * FROM users 
        WHERE username LIKE ? 
        AND first_name LIKE ? 
        AND last_name LIKE ? 
        ORDER BY username ASC
    " in
  query sql [VStr ("%" +:+ username +:+ "%"); VStr ("%" +:+ first_name +:+ "%");
             VStr ("%" +:+ last_name +:+ "%")].

Definition deleteUsersWithLessThanKills (kills : Z) : R :=
  let sql := "
            DELETE FROM users 
            WHERE id IN (
                SELECT user_id 
                FROM statistics 
                GROUP BY user_id 
                HAVING SUM(kills) < ?
            )
        " in
  query sql [VInt kills].
End sqlFunctions.

(** ** The first copy of the class (src/sql.js, lines 5-88)

    Its other eight methods are, letter for letter, those above; these two
    select without an ORDER BY clause. *)
Module FirstCopy.
Section sqlFunctions.
Context {R : Type}.
Variable query : string → list value → R.

Definition getAllUsers : R :=
  let sql := "SELECT * FROM users" in
  query sql [].

Definition searchUserByUsername (username : string) : R :=
  let sql := "SELECT * FROM users WHERE username LIKE ?" in
  query sql [VStr ("%" +:+ username +:+ "%")].
End sqlFunctions.
End FirstCopy.

(** ** What a method submits to the executor *)

(** A call of a method of the class with its inputs. *)
Inductive operation :=
  | CreateUser (data : UserData.t)
  | UpdateUser (id : Z) (data : UserData.t)
  | DeleteUser (id : Z)
  | GetAllUsers
  | CreateStatistic (data : StatisticData.t)
  | UpdateStatistic (id : Z) (data : StatisticData.t)
  | DeleteStatistic (id : Z)
  | GetAllStatistics
  | GetStatisticsWithLimitOffset (limit offset : Z)
  | SearchStatisticsByDate (d : date)
  | SearchStatisticsByDateRange (startDate endDate : date)
  | SearchUserByUsername (username : string)
  | SearchUserByDetails (username first_name last_name : string)
  | DeleteUsersWithLessThanKills (kills : Z).

Definition call {R} (query : string → list value → R) (op : operation) : R :=
  match op with
  | CreateUser data => createUser query data
  | UpdateUser id data => updateUser query id data
  | DeleteUser id => deleteUser query id
  | GetAllUsers => getAllUsers query
  | CreateStatistic data => createStatistic query data
  | UpdateStatistic id data => updateStatistic query id data
  | DeleteStatistic id => deleteStatistic query id
  | GetAllStatistics => getAllStatistics query
  | GetStatisticsWithLimitOffset limit offset =>
      getStatisticsWithLimitOffset query limit offset
  | SearchStatisticsByDate d => searchStatisticsByDate query d
  | SearchStatisticsByDateRange startDate endDate =>
      searchStatisticsByDateRange query startDate endDate
  | SearchUserByUsername username => searchUserByUsername query username
  | SearchUserByDetails username first_name last_name =>
      searchUserByDetails query username first_name last_name
  | DeleteUsersWithLessThanKills kills => deleteUsersWithLessThanKills query kills
  end.

(** Two calls of one method, whatever their inputs. *)
Definition same_method (a b : operation) : bool :=
  match a, b with
  | CreateUser _, CreateUser _
  | UpdateUser _ _, UpdateUser _ _
  | DeleteUser _, DeleteUser _
  | GetAllUsers, GetAllUsers
  | CreateStatistic _, CreateStatistic _
  | UpdateStatistic _ _, UpdateStatistic _ _
  | DeleteStatistic _, DeleteStatistic _
  | GetAllStatistics, GetAllStatistics
  | GetStatisticsWithLimitOffset _ _, GetStatisticsWithLimitOffset _ _
  | SearchStatisticsByDate _, SearchStatisticsByDate _
  | SearchStatisticsByDateRange _ _, SearchStatisticsByDateRange _ _
  | SearchUserByUsername _, SearchUserByUsername _
  | SearchUserByDetails _ _ _, SearchUserByDetails _ _ _
  | DeleteUsersWithLessThanKills _, DeleteUsersWithLessThanKills _ => true
  | _, _ => false
  end.

(** The executor that only records the template and the argument list. *)
Definition submitted (sql : string) (args : list value) : string * list value :=
  (sql, args).

(** Number of [?] placeholders of a template. *)
Definition placeholders (sql : string) : nat :=
  length (filter (λ c, c = "?"%char) (chars sql)).

(** ** Vocabulary of the properties *)

(** The rows a settled SELECT on users resolved with. *)
Definition user_rows (r : promise * store) : option (list User.t) :=
  match r.1 with
  | Resolved (UserRows l) => Some l
  | _ => None
  end.

(** The acknowledgement a settled write resolved with. *)
Definition acknowledged (r : promise * store) : option nat :=
  match r.1 with
  | Resolved (OkPacket p) => Some (affectedRows p)
  | _ => None
  end.

(** The account [uid] owns at least one activity record. *)
Definition has_activity (uid : Z) (stats : list Statistic.t) : Prop :=
  ∃ r, r ∈ stats ∧ Statistic.user_id r = uid.

(** The count values of the activity records of account [uid], summed. *)
Fixpoint summed_count (uid : Z) (stats : list Statistic.t) : Z :=
  match stats with
  | [] => 0
  | r :: stats' =>
      ((if decide (Statistic.user_id r = uid) then Statistic.kills r else 0)
       + summed_count uid stats')%Z
  end.

(** Literal reading of "substring match" for [searchUserByUsername]: the
    rows returned are those whose handle has the fragment as a literal
    substring, in ascending handle order. *)
Definition literal_handle_search (fold : ascii → ascii) (fragment : string)
    (db : store) : Prop :=
  ∃ l, user_rows (searchUserByUsername (query fold) fragment db) = Some l
       ∧ (∀ u, u ∈ l ↔ u ∈ users db ∧ substring_of fragment (User.username u))
       ∧ Sorted (username_le fold) l.

(** The same reading for the three fragments of [searchUserByDetails]. *)
Definition literal_details_search (fold : ascii → ascii)
    (username first_name last_name : string) (db : store) : Prop :=
  ∃ l, user_rows (searchUserByDetails (query fold) username first_name last_name db)
         = Some l
       ∧ (∀ u, u ∈ l ↔ u ∈ users db
                       ∧ substring_of username (User.username u)
                       ∧ substring_of first_name (User.first_name u)
                       ∧ substring_of last_name (User.last_name u))
       ∧ Sorted (username_le fold) l.

(** ** Sample stores *)

Definition bob : User.t := User.mk 1 "bob" "Secret123" "Bob" "Z".
Definition alice : User.t := User.mk 2 "alice" "Secret123" "A" "X".
Definition alicia : User.t := User.mk 3 "alicia" "Secret123" "B" "Y".

Definition jan (d : Z) : date := mkDate 2024 1 d.

Definition seeded : store :=
  mkStore [bob; alice; alicia]
    [Statistic.mk 1 1 2 (jan 1); Statistic.mk 2 1 2 (jan 2);
     Statistic.mk 3 1 1 (jan 3); Statistic.mk 4 2 50 (jan 3);
     Statistic.mk 5 2 7 (jan 4)]
    4 6.



(** A binary collation and a case-insensitive one. *)
Definition binary : ascii → ascii := λ c, c.

Definition lower (c : ascii) : ascii :=
  let n := nat_of_ascii c in
  if (65 <=? n)%nat && (n <=? 90)%nat then ascii_of_nat (n + 32) else c.

(** ** Identifiers and tables *)

(** The ids of each table are pairwise distinct and below the table's
    AUTO_INCREMENT counter. *)
Definition ids_fresh (db : store) : Prop :=
  NoDup (User.id <$> users db)
  ∧ Forall (λ u, (User.id u < next_user_id db)%Z) (users db)
  ∧ NoDup (Statistic.id <$> statistics db)
  ∧ Forall (λ r, (Statistic.id r < next_statistic_id db)%Z) (statistics db).

Inductive table := UsersTable | StatisticsTable.

(** The table named after INSERT INTO, UPDATE or DELETE FROM in the
    template of a method; [None] for a SELECT. *)
Definition written (op : operation) : option table :=
  match op with
  | CreateUser _ | UpdateUser _ _ | DeleteUser _
  | DeleteUsersWithLessThanKills _ => Some UsersTable
  | CreateStatistic _ | UpdateStatistic _ _ | DeleteStatistic _ =>
      Some StatisticsTable
  | _ => None
  end.

(** The row [createUser] inserts. *)
Definition new_user (data : UserData.t) (db : store) : User.t :=
  User.mk (next_user_id db) (UserData.username data) (UserData.password data)
    (UserData.first_name data) (UserData.last_name data).

(** The row [createStatistic] inserts. *)
Definition new_statistic (data : StatisticData.t) (db : store) : Statistic.t :=
  Statistic.mk (next_statistic_id db) (StatisticData.user_id data)
    (StatisticData.kills data) (StatisticData.date data).

(** ** The HTTP layer (the later api.js, src/unnamed/part_000)

    Conventions: a path is the list of its segments; a path parameter [:id]
    is a text, and the store's reading of it is part of the schema below; an
    entry of [errors.array()] is represented by its [msg]. *)

Inductive verb := GET | POST | PUT | DELETE.

(** What a handler writes to [res]. *)
Inductive body :=
  | Send (text : string)                  (* res.send(text) *)
  | Json (r : rows)                       (* res.json(rows) *)
  | JsonErrors (errors : list string).    (* res.json({ errors: ... }) *)

Record response := mkResponse { status : nat; payload : body }.

(** A route handler runs against the store and answers. *)
Definition handler : Type := store → response * store.

(** [try { const r = await p; ok(r) } catch (err) {
      res.status(500).send(err.message) }] *)
Definition settle (ok : rows → response) (p : promise * store)
  : response * store :=
  match p with
  | (Resolved r, db') => (ok r, db')
  | (Rejected err, db') => (mkResponse 500 (Send err), db')
  end.

(** [handleValidationErrors]: 400 with the errors when there are any,
    [next()] otherwise. *)
Definition handleValidationErrors (errors : list string) (next : handler)
  : handler :=
  λ db, if decide (errors = [])
        then next db
        else (mkResponse 400 (JsonErrors errors), db).



(** *** The rules of [validateUser] *)

(** [req.body] of the user routes: a field is a string or is missing. *)
Module UserBody.
Record t := mk {
    username : option string;
    password : option string;
    first_name : option string;
    last_name : option string
}.
End UserBody.

(** The validators read a missing field as the empty string. *)
Definition field (o : option string) : string := default EmptyString o.

Definition code (c : ascii) : nat := nat_of_ascii c.

Definition capital (c : ascii) : bool := (65 <=? code c)%nat && (code c <=? 90)%nat.
Definition small (c : ascii) : bool := (97 <=? code c)%nat && (code c <=? 122)%nat.
Definition digit (c : ascii) : bool := (48 <=? code c)%nat && (code c <=? 57)%nat.

(** A text is held as its UTF-8 bytes. A line terminator of a JavaScript
    pattern starts the text [s]: LF or CR, one byte each, or U+2028 or
    U+2029, the byte sequences E2 80 A8 and E2 80 A9. *)
Definition line_terminator (s : list ascii) : bool :=
  match s with
  | [] => false
  | a :: rest =>
      (code a =? 10)%nat || (code a =? 13)%nat
      || match rest with
         | b :: c :: _ =>
             (code a =? 226)%nat && (code b =? 128)%nat
             && ((code c =? 168)%nat || (code c =? 169)%nat)
         | _ => false
         end
  end.

(** [notEmpty()] *)
Definition notEmpty (s : string) : bool := negb (String.eqb s EmptyString).

(** [isLength({ min })]; [characters] is the library's count of the
    characters of a text (a surrogate pair counts once), which the
    repository takes from express-validator. *)
Definition isLength_min (characters : string → nat) (min : nat) (s : string)
  : bool :=
  (min <=? characters s)%nat.

(** What [.] can run over from the start of the string: the bytes before
    the first line terminator. *)
Fixpoint first_line (s : list ascii) : list ascii :=
  match s with
  | [] => []
  | c :: s' =>
      if line_terminator s then [] else c :: first_line s'
  end.

(** [matches(/^(?=.*[A-Z])(?=.*\d)/)] *)
Definition matches_capital_and_digit (s : string) : bool :=
  existsb capital (first_line (chars s)) && existsb digit (first_line (chars s)).

(** [isAlpha()], that is [/^[A-Z]+$/i]. *)
Definition isAlpha (s : string) : bool :=
  notEmpty s && forallb (λ c, capital c || small c) (chars s).

(** A validator followed by [withMessage(msg)]. *)
Definition check (passed : bool) (msg : string) : list string :=
  if passed then [] else [msg].

(** [validateUser] followed by [validationResult(req).array()]. *)
Definition validateUser (characters : string → nat) (b : UserBody.t)
  : list string :=
  check (notEmpty (field (UserBody.username b))) "Username is required"
  ++ check (isLength_min characters 8 (field (UserBody.password b)))
       "Password must be at least 8 characters long"
  ++ check (matches_capital_and_digit (field (UserBody.password b)))
       "Password must contain at least one capital letter and one number"
  ++ check (notEmpty (field (UserBody.first_name b))) "First name is required"
  ++ check (isAlpha (field (UserBody.first_name b)))
       "First name cannot contain numbers"
  ++ check (notEmpty (field (UserBody.last_name b))) "Last name is required"
  ++ check (isAlpha (field (UserBody.last_name b)))
       "Last name cannot contain numbers".

(** The [data] the repository reads off [req.body]. *)
Definition user_data (b : UserBody.t) : UserData.t :=
  UserData.mk (field (UserBody.username b)) (field (UserBody.password b))
    (field (UserBody.first_name b)) (field (UserBody.last_name b)).

(** [`%${username}%`] reads a missing parameter as the text [undefined]. *)
Definition interpolated (o : option string) : string := default "undefined" o.

(** *** The route handlers *)

Section Api.
Variable fold : ascii → ascii.
Variable characters : string → nat.

(** [app.post('/users', validateUser, handleValidationErrors, ...)] *)
Definition post_users (b : UserBody.t) : handler :=
  handleValidationErrors (validateUser characters b)
    (λ db, settle (λ _, mkResponse 201 (Send "User created"))
             (createUser (query fold) (user_data b) db)).

(** [app.get('/users', ...)] *)
Definition get_users : handler :=
  λ db, settle (λ r, mkResponse 200 (Json r)) (getAllUsers (query fold) db).

(** [app.get('/users/search', ...)] *)
Definition get_users_search (username : option string) : handler :=
  λ db, settle (λ r, mkResponse 200 (Json r))
          (searchUserByUsername (query fold) (interpolated username) db).

(** [app.get('/users/searchByDetails', ...)]: the three parameters default
    to the empty string; [validateUserDetails] accepts every string. *)
Definition get_users_searchByDetails (username first_name last_name : option string)
  : handler :=
  λ db, settle (λ r, mkResponse 200 (Json r))
          (searchUserByDetails (query fold) (field username) (field first_name)
             (field last_name) db).


(** [app.get('/statistics', ...)] *)
Definition get_statistics : handler :=
  λ db, settle (λ r, mkResponse 200 (Json r)) (getAllStatistics (query fold) db).

End Api.

(** *** The router *)

(** A segment of a route path: a literal or a named parameter. *)
Inductive segment :=
  | Lit (s : string)
  | Param (name : string).

Inductive route :=
  | PostUsers | PutUsersId | DeleteUsersId | GetUsers | GetUsersSearch
  | GetUsersSearchByDetails | DeleteUsersDeleteByKills
  | PostStatistics | PutStatisticsId | DeleteStatisticsId | GetStatistics
  | GetStatisticsPaginate | GetStatisticsSearch | GetStatisticsSearchByDate.

#[global] Instance verb_eq_dec : EqDecision verb.
Proof. solve_decision. Defined.
#[global] Instance route_eq_dec : EqDecision route.
Proof. solve_decision. Defined.

(** The routes in the order in which [app.post], [app.put], [app.delete]
    and [app.get] register them. *)
Definition routes : list (verb * list segment * route) :=
  [ (POST, [Lit "users"], PostUsers);
    (PUT, [Lit "users"; Param "id"], PutUsersId);
    (DELETE, [Lit "users"; Param "id"], DeleteUsersId);
    (GET, [Lit "users"], GetUsers);
    (GET, [Lit "users"; Lit "search"], GetUsersSearch);
    (GET, [Lit "users"; Lit "searchByDetails"], GetUsersSearchByDetails);
    (DELETE, [Lit "users"; Lit "deleteByKills"], DeleteUsersDeleteByKills);
    (POST, [Lit "statistics"], PostStatistics);
    (PUT, [Lit "statistics"; Param "id"], PutStatisticsId);
    (DELETE, [Lit "statistics"; Param "id"], DeleteStatisticsId);
    (GET, [Lit "statistics"], GetStatistics);
    (GET, [Lit "statistics"; Lit "paginate"], GetStatisticsPaginate);
    (GET, [Lit "statistics"; Lit "search"], GetStatisticsSearch);
    (GET, [Lit "statistics"; Lit "searchByDate"], GetStatisticsSearchByDate) ].

(** A literal matches its segment whatever the case of the letters. *)
Definition same_segment (a b : string) : bool :=
  bool_decide (lower <$> chars a = lower <$> chars b).

(** The parameters a path binds when it matches a route path: a parameter
    takes one segment that is not empty, and one slash may follow the last
    segment. *)
Fixpoint match_path (pattern : list segment) (path : list string)
  : option (list (string * string)) :=
  match pattern, path with
  | [], [] => Some []
  | [], [last] => if String.eqb last EmptyString then Some [] else None
  | Lit s :: pattern', seg :: path' =>
      if same_segment s seg then match_path pattern' path' else None
  | Param name :: pattern', seg :: path' =>
      if String.eqb seg EmptyString then None
      else cons (name, seg) <$> match_path pattern' path'
  | _, _ => None
  end.

(** The first registered route of that verb whose path matches handles the
    request; no handler of this file passes the request on. *)
Fixpoint dispatch_in (table : list (verb * list segment * route)) (v : verb)
    (path : list string) : option (route * list (string * string)) :=
  match table with
  | [] => None
  | (v', pattern, r) :: table' =>
      match (if decide (v' = v) then match_path pattern path else None) with
      | Some params => Some (r, params)
      | None => dispatch_in table' v path
      end
  end.

Definition dispatch (v : verb) (path : list string)
  : option (route * list (string * string)) :=
  dispatch_in routes v path.

(** ** The schema, which the repository leaves to the store

    The repository declares no table. What the statements above do not
    decide is taken as a parameter: whether statistics.user_id refers to
    users.id by a foreign key and with which action, and how the store reads
    a text that is compared with an id. The executor [pool_query] is the
    store without a foreign key and with integer ids. *)

Inductive reference :=
  | NoForeignKey          (* no FOREIGN KEY on statistics.user_id *)
  | OnDeleteCascade       (* FOREIGN KEY ... ON DELETE CASCADE *)
  | OnDeleteRestrict.     (* FOREIGN KEY ..., ON DELETE RESTRICT or NO ACTION *)

Record schema := mkSchema {
  foreign_key : reference;
  collation : ascii → ascii;
  (* the integer as which the store compares a text with an id, when it
     reads the text as one *)
  read_id : string → option Z;
  (* the store's answer to a statement by id whose text it does not read
     as an integer *)
  unread_id : string → list value → store → callback * store
}.

Definition ER_ROW_IS_REFERENCED : string := "ER_ROW_IS_REFERENCED_2".
Definition ER_NO_REFERENCED_ROW : string := "ER_NO_REFERENCED_ROW_2".

Section Schema.
Variable S : schema.

(** [DELETE FROM users WHERE ...] for the rows that satisfy [gone]: without
    a foreign key the accounts go and nothing else; with a cascading one the
    records that refer to a removed account go with it, uncounted; with a
    restricting one the statement fails, and removes nothing, when a record
    refers to an account it would remove. *)
Definition delete_users_under (gone : User.t → Prop) `{∀ u, Decision (gone u)}
    (db : store) : callback * store :=
  let removed := filter gone (users db) in
  let kept := filter (λ u, ¬ gone u) (users db) in
  let orphaned := λ r, Statistic.user_id r ∈ User.id <$> removed in
  match foreign_key S with
  | NoForeignKey =>
      (ack (length removed),
       mkStore kept (statistics db) (next_user_id db) (next_statistic_id db))
  | OnDeleteCascade =>
      (ack (length removed),
       mkStore kept (filter (λ r, ¬ orphaned r) (statistics db))
         (next_user_id db) (next_statistic_id db))
  | OnDeleteRestrict =>
      if decide (Exists orphaned (statistics db))
      then (Err ER_ROW_IS_REFERENCED, db)
      else (ack (length removed),
            mkStore kept (statistics db) (next_user_id db) (next_statistic_id db))
  end.

(** With a foreign key an inserted record has to refer to an account. *)
Definition insert_statistic_under (data : StatisticData.t) (db : store)
  : callback * store :=
  match foreign_key S with
  | NoForeignKey => insert_statistic data db
  | _ =>
      if decide (StatisticData.user_id data ∈ User.id <$> users db)
      then insert_statistic data db
      else (Err ER_NO_REFERENCED_ROW, db)
  end.

(** With a foreign key a record whose [user_id] changes has to refer to an
    account afterwards. *)
Definition update_statistic_under (i : Z) (data : StatisticData.t) (db : store)
  : callback * store :=
  match foreign_key S with
  | NoForeignKey => update_statistic i data db
  | _ =>
      if decide (Exists (λ r, Statistic.id r = i
                              ∧ Statistic.user_id r ≠ StatisticData.user_id data)
                   (statistics db)
                 ∧ StatisticData.user_id data ∉ User.id <$> users db)
      then (Err ER_NO_REFERENCED_ROW, db)
      else update_statistic i data db
  end.

(** A statement by id whose id is bound as a text. *)
Definition by_text (sql : string) (args : list value) (s : string)
    (run : Z → store → callback * store) (db : store) : callback * store :=
  match read_id S s with
  | Some i => run i db
  | None => unread_id S sql args db
  end.

(** The store under the schema [S]: the statements that a foreign key or a
    text id bears on, and [pool_query] for the others. *)
Definition pool_query_under (sql : string) (args : list value) (db : store)
  : callback * store :=
  if String.eqb sql "DELETE FROM users WHERE id = ?" then
    match args with
    | [VInt i] => delete_users_under (λ u, User.id u = i) db
    | [VStr s] =>
        by_text sql args s (λ i, delete_users_under (λ u, User.id u = i)) db
    | _ => (Err ER_WRONG_ARGUMENTS, db)
    end
  else if String.eqb sql "
            DELETE FROM users 
            WHERE id IN (
                SELECT user_id 
                FROM statistics 
                GROUP BY user_id 
                HAVING SUM(kills) < ?
            )
        " then
    match args with
    | [VInt t] =>
        delete_users_under
          (λ u, User.id u ∈ having_sum_below t (statistics db)) db
    | _ => (Err ER_WRONG_ARGUMENTS, db)
    end
  else if String.eqb sql "UPDATE users SET username = ?, password = ?, first_name = ?, last_name = ? WHERE id = ?" then
    match args with
    | [VStr u; VStr p; VStr f; VStr l; VStr s] =>
        by_text sql args s (λ i, update_user i (UserData.mk u p f l)) db
    | _ => pool_query (collation S) sql args db
    end
  else if String.eqb sql "INSERT INTO statistics (user_id, kills, date) VALUES (?, ?, ?)" then
    match args with
    | [VInt u; VInt k; VDate d] =>
        insert_statistic_under (StatisticData.mk u k d) db
    | _ => (Err ER_WRONG_ARGUMENTS, db)
    end
  else if String.eqb sql "UPDATE statistics SET user_id = ?, kills = ?, date = ? WHERE id = ?" then
    match args with
    | [VInt u; VInt k; VDate d; VInt i] =>
        update_statistic_under i (StatisticData.mk u k d) db
    | [VInt u; VInt k; VDate d; VStr s] =>
        by_text sql args s
          (λ i, update_statistic_under i (StatisticData.mk u k d)) db
    | _ => (Err ER_WRONG_ARGUMENTS, db)
    end
  else if String.eqb sql "DELETE FROM statistics WHERE id = ?" then
    match args with
    | [VStr s] => by_text sql args s delete_statistic db
    | _ => pool_query (collation S) sql args db
    end
  else pool_query (collation S) sql args db.

(** [query(sql, args)] against the store under [S]. *)
Definition query_under (sql : string) (args : list value) (db : store)
  : promise * store :=
  match pool_query_under sql args db with
  | (Err err, db') => (Rejected err, db')
  | (Rows r, db') => (Resolved r, db')
  end.
End Schema.

(** The methods by id as the routes call them, with the text of
    [req.params.id] for the id. *)
Module ByText.
Section sqlFunctions.
Context {R : Type}.
Variable query : string → list value → R.

Definition updateUser (id : string) (data : UserData.t) : R :=
  let sql := "UPDATE users SET username = ?, password = ?, first_name = ?, last_name = ? WHERE id = ?" in
  query sql [VStr (UserData.username data); VStr (UserData.password data);
             VStr (UserData.first_name data); VStr (UserData.last_name data);
             VStr id].

Definition deleteUser (id : string) : R :=
  let sql := "DELETE FROM users WHERE id = ?" in
  query sql [VStr id].

Definition deleteStatistic (id : string) : R :=
  let sql := "DELETE FROM statistics WHERE id = ?" in
  query sql [VStr id].
End sqlFunctions.
End ByText.

(** The routes by id, against the store under a schema. *)
Section ApiById.
Variable S : schema.
Variable characters : string → nat.

(** [app.put('/users/:id', validateUser, handleValidationErrors, ...)] *)
Definition put_users_id (id : string) (b : UserBody.t) : handler :=
  handleValidationErrors (validateUser characters b)
    (λ db, settle (λ _, mkResponse 200 (Send "User updated"))
             (ByText.updateUser (query_under S) id (user_data b) db)).

(** [app.delete('/users/:id', ...)] *)
Definition delete_users_id (id : string) : handler :=
  λ db, settle (λ _, mkResponse 200 (Send "User deleted"))
          (ByText.deleteUser (query_under S) id db).

(** [app.delete('/statistics/:id', ...)] *)
Definition delete_statistics_id (id : string) : handler :=
  λ db, settle (λ _, mkResponse 200 (Send "Statistic deleted"))
          (ByText.deleteStatistic (query_under S) id db).
End ApiById.

(** Cascade reading of the aggregate delete: once it has run, no activity
    record refers to an account it removed. *)
Definition cascades_under (S : schema) (threshold : Z) (db : store) : Prop :=
  let db' := (deleteUsersWithLessThanKills (query_under S) threshold db).2 in
  ∀ u r, u ∈ users db → u ∉ users db' →
         r ∈ statistics db' → Statistic.user_id r ≠ User.id u.

(** The account [u] is one the aggregate delete selects. *)
Definition below_threshold (threshold : Z) (db : store) (u : User.t) : Prop :=
  has_activity (User.id u) (statistics db)
  ∧ (summed_count (User.id u) (statistics db) < threshold)%Z.

(** *** Sample schemas *)

(** An unsigned decimal numeral and its value. *)
Fixpoint decimal_digits (acc : Z) (s : list ascii) : option Z :=
  match s with
  | [] => Some acc
  | c :: s' =>
      if digit c
      then decimal_digits (10 * acc + Z.of_nat (code c - 48)) s'
      else None
  end.

Definition decimal (s : string) : option Z :=
  match chars s with
  | [] => None
  | l => decimal_digits 0 l
  end.

(** A store with a binary collation that reads decimal numerals as ids and
    refuses a statement by id on any other text. *)
Definition strict_schema (fk : reference) : schema :=
  mkSchema fk binary decimal (λ _ _ db, (Err "ER_TRUNCATED_WRONG_VALUE", db)).

(** The library's count on a text of ASCII characters: one per byte. *)
Definition ascii_characters (s : string) : nat := length (chars s).

(** ** More sample data *)

(** Two accounts whose handles carry LIKE metacharacters. *)
Definition full : User.t := User.mk 1 "100%" "Secret123" "Full" "Marks".
Definition slash : User.t :=
  User.mk 2 ("a" +:+ String backslash "b") "Secret123" "Back" "Slash".

Definition odd_store : store := mkStore [full; slash] [] 3 1.

Definition carol_body : UserBody.t :=
  UserBody.mk (Some "carol") (Some "Secret123") (Some "Carol") (Some "White").

(** * Properties *)

(** ** Dates *)

Lemma date_leb_le a b : date_leb a b = true ↔ date_le a b.
Proof.
  unfold date_leb, date_le.
  rewrite !orb_true_iff, !andb_true_iff, !orb_true_iff, !andb_true_iff.
  rewrite !Z.ltb_lt, !Z.eqb_eq, Z.leb_le. tauto.
Qed.

Lemma date_le_refl a : date_le a a.
Proof. unfold date_le. right. split; [done | right; split; [done | lia]]. Qed.

Lemma date_le_antisym a b : date_le a b → date_le b a → a = b.
Proof.
  destruct a as [y m d], b as [y' m' d']. unfold date_le. simpl.
  intros H1 H2. f_equal; lia.
Qed.

Lemma between_spec d lo hi :
  between d lo hi = true ↔ date_le lo d ∧ date_le d hi.
Proof. unfold between. by rewrite andb_true_iff, !date_leb_le. Qed.

(** ** The collation order *)

Lemma lex_leb_total a b : lex_leb a b = true ∨ lex_leb b a = true.
Proof.
  revert b. induction a as [|x a IH]; intros [|y b]; simpl; auto.
  destruct (N.ltb_spec x y), (N.ltb_spec y x), (N.eqb_spec x y),
    (N.eqb_spec y x); simpl; auto; lia.
Qed.

Lemma lex_leb_trans a b c :
  lex_leb a b = true → lex_leb b c = true → lex_leb a c = true.
Proof.
  revert b c. induction a as [|x a IH]; intros [|y b] [|z c]; simpl; auto;
    try discriminate.
  rewrite !orb_true_iff, !andb_true_iff, !N.ltb_lt, !N.eqb_eq.
  intros [?|[? ?]] [?|[? ?]]; try (left; lia).
  right. split; [lia | eauto].
Qed.

Section CollationOrder.
Variable fold : ascii → ascii.

#[global] Instance username_le_total : Total (username_le fold).
Proof. intros u v. apply lex_leb_total. Qed.

#[global] Instance username_le_trans : Transitive (username_le fold).
Proof. intros u v w. apply lex_leb_trans. Qed.

Lemma order_by_username_perm l : order_by_username fold l ≡ₚ l.
Proof. apply merge_sort_Permutation. Qed.

Lemma order_by_username_sorted l :
  StronglySorted (username_le fold) (order_by_username fold l).
Proof. apply StronglySorted_merge_sort; apply _. Qed.

Lemma elem_of_order_by_username u l : u ∈ order_by_username fold l ↔ u ∈ l.
Proof. by rewrite order_by_username_perm. Qed.
End CollationOrder.

(** ** LIKE patterns built from a fragment *)

Lemma chars_app a b : chars (a +:+ b) = chars a ++ chars b.
Proof. induction a as [|c a IH]; simpl; [done | by rewrite <- IH]. Qed.

Lemma chars_wrap f : chars ("%" +:+ f +:+ "%") = percent :: chars f ++ [percent].
Proof. by rewrite !chars_app. Qed.

Lemma like_tokens_plain_snoc f :
  forallb plain_char f = true →
  like_tokens (f ++ [percent]) = (LikeChar <$> f) ++ [LikeAny].
Proof.
  induction f as [|c f IH]; simpl; [done|].
  rewrite andb_true_iff. unfold plain_char at 1.
  rewrite !andb_true_iff, !negb_true_iff. intros [[[-> ->] ->] Hf].
  by rewrite IH.
Qed.

Lemma like_tokens_wrap f :
  plain f = true →
  like_tokens (chars ("%" +:+ f +:+ "%")) = LikeAny :: (LikeChar <$> chars f) ++ [LikeAny].
Proof.
  intros Hf. rewrite chars_wrap. simpl. by rewrite like_tokens_plain_snoc.
Qed.

Section LikeMatch.
Variable fold : ascii → ascii.

Lemma like_match_any_unfold p s :
  like_match fold (LikeAny :: p) s =
  like_match fold p s
  || match s with [] => false | _ :: s' => like_match fold (LikeAny :: p) s' end.
Proof. by destruct s. Qed.

Lemma like_match_any p s :
  like_match fold (LikeAny :: p) s = true ↔
  ∃ pre rest, s = pre ++ rest ∧ like_match fold p rest = true.
Proof.
  induction s as [|a s IH]; rewrite like_match_any_unfold, orb_true_iff.
  - split.
    + intros [H|H]; [|done]. by exists [], [].
    + intros (pre & rest & Hs & H). left.
      symmetry in Hs. apply app_eq_nil in Hs as [-> ->]. done.
  - rewrite IH. split.
    + intros [H|(pre & rest & -> & H)].
      * by exists [], (a :: s).
      * by exists (a :: pre), rest.
    + intros ([|b pre] & rest & Hs & H); simpl in Hs.
      * left. by subst.
      * right. injection Hs as -> ->. by exists pre, rest.
Qed.

Lemma like_match_tail_any s : like_match fold [LikeAny] s = true.
Proof. apply like_match_any. exists s, []. by rewrite app_nil_r. Qed.

Lemma like_match_chars f s :
  like_match fold ((LikeChar <$> f) ++ [LikeAny]) s = true ↔
  ∃ mid post, s = mid ++ post ∧ fold <$> mid = fold <$> f.
Proof.
  revert s. induction f as [|c f IH]; intros s.
  - simpl (_ <$> _). rewrite app_nil_l. split.
    + intros _. by exists [], s.
    + intros _. apply like_match_tail_any.
  - change (like_match fold ((LikeChar <$> c :: f) ++ [LikeAny]) s)
      with (match s with
            | [] => false
            | a :: s' =>
                Ascii.eqb (fold c) (fold a)
                && like_match fold ((LikeChar <$> f) ++ [LikeAny]) s'
            end).
    destruct s as [|a s].
    + split; [done|]. intros (mid & post & Hs & Hm).
      symmetry in Hs. apply app_eq_nil in Hs as [-> ->]. done.
    + rewrite andb_true_iff, Ascii.eqb_eq, IH. split.
      * intros (Hc & mid & post & -> & Hm).
        exists (a :: mid), post. split; [done|]. csimpl. by rewrite Hc, Hm.
      * intros ([|b mid] & post & Hs & Hm); [done|].
        simpl in Hs. injection Hs as -> ->. csimpl in Hm.
        injection Hm as Hc Hm. split; [done|]. by exists mid, post.
Qed.

(** A fragment without metacharacters, wrapped in [%...%], matches exactly
    the strings that contain it up to the collation. *)
Lemma like_plain_fragment h f :
  plain f = true →
  like fold h ("%" +:+ f +:+ "%") = true ↔ contains fold h f.
Proof.
  intros Hf. unfold like, contains. rewrite like_tokens_wrap by done.
  rewrite like_match_any. split.
  - intros (pre & rest & Hh & H). apply like_match_chars in H
      as (mid & post & -> & Hm). by exists pre, mid, post.
  - intros (pre & mid & post & Hh & Hm). exists pre, (mid ++ post).
    split; [done|]. apply like_match_chars. by exists mid, post.
Qed.

Lemma contains_empty h : contains fold h empty_fragment.
Proof. by exists [], [], (chars h). Qed.

(** The empty fragment matches every string. *)
Lemma like_empty_fragment h : like fold h ("%" +:+ empty_fragment +:+ "%") = true.
Proof. apply like_plain_fragment; [done | apply contains_empty]. Qed.
End LikeMatch.

(** ** What the methods evaluate to on the store *)

Section Methods.
Variable fold : ascii → ascii.

Lemma getAllUsers_query db :
  getAllUsers (query fold) db
  = (Resolved (UserRows (order_by_username fold (users db))), db).
Proof. reflexivity. Qed.

Lemma searchUserByUsername_query username db :
  searchUserByUsername (query fold) username db
  = (Resolved (UserRows (order_by_username fold
       (filter (λ r, like fold (User.username r) ("%" +:+ username +:+ "%") = true)
          (users db)))), db).
Proof. reflexivity. Qed.

Lemma searchUserByDetails_query username first_name last_name db :
  searchUserByDetails (query fold) username first_name last_name db
  = (Resolved (UserRows (order_by_username fold
       (filter (λ r, like fold (User.username r) ("%" +:+ username +:+ "%")
                     && like fold (User.first_name r) ("%" +:+ first_name +:+ "%")
                     && like fold (User.last_name r) ("%" +:+ last_name +:+ "%")
                     = true)
          (users db)))), db).
Proof. reflexivity. Qed.

Lemma deleteUsersWithLessThanKills_query kills db :
  deleteUsersWithLessThanKills (query fold) kills db
  = (Resolved (OkPacket (mkOk
       (length (filter (λ r, User.id r ∈ having_sum_below kills (statistics db))
                  (users db))) 0)),
     mkStore
       (filter (λ r, User.id r ∉ having_sum_below kills (statistics db)) (users db))
       (statistics db) (next_user_id db) (next_statistic_id db)).
Proof. reflexivity. Qed.

Lemma getStatisticsWithLimitOffset_query limit offset db :
  getStatisticsWithLimitOffset (query fold) limit offset db
  = match limit_offset limit offset (statistics db) with
    | Some page => (Resolved (StatisticRows page), db)
    | None => (Rejected ER_PARSE_ERROR, db)
    end.
Proof.
  unfold getStatisticsWithLimitOffset, query.
  change (pool_query fold _ _ db)
    with (match limit_offset limit offset (statistics db) with
          | Some page => (Rows (StatisticRows page), db)
          | None => (Err ER_PARSE_ERROR, db)
          end).
  by destruct (limit_offset limit offset (statistics db)).
Qed.

Lemma searchStatisticsByDateRange_query startDate endDate db :
  searchStatisticsByDateRange (query fold) startDate endDate db
  = (Resolved (StatisticRows
       (filter (λ r, between (Statistic.date r) startDate endDate = true)
          (statistics db))), db).
Proof. reflexivity. Qed.

Lemma updateUser_query i data db :
  updateUser (query fold) i data db
  = (Resolved (OkPacket (mkOk (length (filter (λ r, User.id r = i) (users db))) 0)),
     (update_user i (UserData.mk (UserData.username data) (UserData.password data)
                       (UserData.first_name data) (UserData.last_name data)) db).2).
Proof. reflexivity. Qed.

Lemma deleteUser_query i db :
  deleteUser (query fold) i db
  = (Resolved (OkPacket (mkOk (length (filter (λ r, User.id r = i) (users db))) 0)),
     (delete_user i db).2).
Proof. reflexivity. Qed.

Lemma updateStatistic_query i data db :
  updateStatistic (query fold) i data db
  = (Resolved (OkPacket
       (mkOk (length (filter (λ r, Statistic.id r = i) (statistics db))) 0)),
     (update_statistic i (StatisticData.mk (StatisticData.user_id data)
                            (StatisticData.kills data) (StatisticData.date data))
        db).2).
Proof. reflexivity. Qed.

Lemma deleteStatistic_query i db :
  deleteStatistic (query fold) i db
  = (Resolved (OkPacket
       (mkOk (length (filter (λ r, Statistic.id r = i) (statistics db))) 0)),
     (delete_statistic i db).2).
Proof. reflexivity. Qed.
End Methods.

(** ** Grouping and the grouped sum *)

Lemma elem_of_group_keys k stats : k ∈ group_keys stats ↔ has_activity k stats.
Proof.
  unfold group_keys, has_activity.
  rewrite elem_of_remove_dups, list_elem_of_fmap. split.
  - intros (r & -> & Hr). by exists r.
  - intros (r & Hr & <-). by exists r.
Qed.

Lemma sum_kills_group_rows k stats :
  sum_kills (group_rows k stats) = summed_count k stats.
Proof.
  unfold group_rows. induction stats as [|r stats IH]; [done|].
  rewrite filter_cons. simpl. case_decide; simpl; rewrite IH; lia.
Qed.

Lemma elem_of_having_sum_below k t stats :
  k ∈ having_sum_below t stats ↔
  has_activity k stats ∧ (summed_count k stats < t)%Z.
Proof.
  unfold having_sum_below.
  rewrite list_elem_of_filter, elem_of_group_keys, sum_kills_group_rows. tauto.
Qed.

Lemma length_filter_complement {A} (P : A → Prop) `{∀ x, Decision (P x)}
    (l : list A) :
  length (filter P l) + length (filter (λ x, ¬ P x) l) = length l.
Proof. by rewrite <- length_app, filter_app_complement. Qed.



(** ** Writes that match no row *)

Lemma filter_none {A} (P : A → Prop) `{∀ x, Decision (P x)} (l : list A) :
  (∀ x, x ∈ l → ¬ P x) → filter P l = [].
Proof.
  induction l as [|x l IH]; intros Hl; [done|].
  rewrite filter_cons. destruct (decide (P x)) as [HP|_].
  - destruct (Hl x); [left | done].
  - apply IH. intros y Hy. apply Hl. by right.
Qed.

Lemma filter_all {A} (P : A → Prop) `{∀ x, Decision (P x)} (l : list A) :
  (∀ x, x ∈ l → P x) → filter P l = l.
Proof.
  induction l as [|x l IH]; intros Hl; [done|].
  rewrite filter_cons. destruct (decide (P x)) as [_|HP].
  - f_equal. apply IH. intros y Hy. apply Hl. by right.
  - destruct HP. apply Hl. left.
Qed.

Lemma fmap_unless {A} (P : A → Prop) `{∀ x, Decision (P x)} (f : A → A)
    (l : list A) :
  (∀ x, x ∈ l → ¬ P x) → (λ x, if decide (P x) then f x else x) <$> l = l.
Proof.
  induction l as [|x l IH]; intros Hl; [done|]. csimpl.
  destruct (decide (P x)) as [HP|_].
  - destruct (Hl x); [left | done].
  - f_equal. apply IH. intros y Hy. apply Hl. by right.
Qed.

Section NoMatch.
Variable fold : ascii → ascii.

Lemma updateUser_no_match id data db :
  (∀ u, u ∈ users db → User.id u ≠ id) →
  updateUser (query fold) id data db = (Resolved (OkPacket (mkOk 0 0)), db).
Proof.
  intros Hno. rewrite updateUser_query. unfold update_user. simpl.
  rewrite filter_none, fmap_unless by done. by destruct db.
Qed.

Lemma deleteUser_no_match id db :
  (∀ u, u ∈ users db → User.id u ≠ id) →
  deleteUser (query fold) id db = (Resolved (OkPacket (mkOk 0 0)), db).
Proof.
  intros Hno. rewrite deleteUser_query. unfold delete_user. simpl.
  rewrite filter_none, filter_all by done. by destruct db.
Qed.

Lemma updateStatistic_no_match id data db :
  (∀ r, r ∈ statistics db → Statistic.id r ≠ id) →
  updateStatistic (query fold) id data db = (Resolved (OkPacket (mkOk 0 0)), db).
Proof.
  intros Hno. rewrite updateStatistic_query. unfold update_statistic. simpl.
  rewrite filter_none, fmap_unless by done. by destruct db.
Qed.

Lemma deleteStatistic_no_match id db :
  (∀ r, r ∈ statistics db → Statistic.id r ≠ id) →
  deleteStatistic (query fold) id db = (Resolved (OkPacket (mkOk 0 0)), db).
Proof.
  intros Hno. rewrite deleteStatistic_query. unfold delete_statistic. simpl.
  rewrite filter_none, filter_all by done. by destruct db.
Qed.

Lemma deleteUser_removes id db :
  ∀ u, u ∈ users (deleteUser (query fold) id db).2 → User.id u ≠ id.
Proof.
  intros u. rewrite deleteUser_query. simpl.
  rewrite list_elem_of_filter. tauto.
Qed.

Lemma deleteStatistic_removes id db :
  ∀ r, r ∈ statistics (deleteStatistic (query fold) id db).2 → Statistic.id r ≠ id.
Proof.
  intros r. rewrite deleteStatistic_query. simpl.
  rewrite list_elem_of_filter. tauto.
Qed.
End NoMatch.

(** C8. When the id matches no row, [updateUser], [deleteUser],
    [updateStatistic] and [deleteStatistic] resolve, with zero affected
    rows, and leave the store as it was; deleting an id a second time is
    such a case. *)
Theorem no_match_resolves_with_zero_rows fold db id :
  ((∀ u, u ∈ users db → User.id u ≠ id) →
   (∀ data, updateUser (query fold) id data db
            = (Resolved (OkPacket (mkOk 0 0)), db))
   ∧ deleteUser (query fold) id db = (Resolved (OkPacket (mkOk 0 0)), db))
  ∧ ((∀ r, r ∈ statistics db → Statistic.id r ≠ id) →
     (∀ data, updateStatistic (query fold) id data db
              = (Resolved (OkPacket (mkOk 0 0)), db))
     ∧ deleteStatistic (query fold) id db = (Resolved (OkPacket (mkOk 0 0)), db))
  ∧ deleteUser (query fold) id (deleteUser (query fold) id db).2
    = (Resolved (OkPacket (mkOk 0 0)), (deleteUser (query fold) id db).2)
  ∧ deleteStatistic (query fold) id (deleteStatistic (query fold) id db).2
    = (Resolved (OkPacket (mkOk 0 0)), (deleteStatistic (query fold) id db).2).
Proof.
  split; [|split; [|split]].
  - intros Hno. split; [intros data; by apply updateUser_no_match|].
    by apply deleteUser_no_match.
  - intros Hno. split; [intros data; by apply updateStatistic_no_match|].
    by apply deleteStatistic_no_match.
  - apply deleteUser_no_match, deleteUser_removes.
  - apply deleteStatistic_no_match, deleteStatistic_removes.
Qed.

Lemma no_match_resolves_with_zero_rows_witness :
  (∀ u, u ∈ users seeded → User.id u ≠ 9%Z)
  ∧ (∀ r, r ∈ statistics seeded → Statistic.id r ≠ 9%Z)
  ∧ updateUser (query binary) 9 (UserData.mk "carol" "Secret123" "Carol" "W") seeded
    = (Resolved (OkPacket (mkOk 0 0)), seeded)
  ∧ deleteUser (query binary) 9 seeded = (Resolved (OkPacket (mkOk 0 0)), seeded)
  ∧ updateStatistic (query binary) 9 (StatisticData.mk 1 4 (jan 5)) seeded
    = (Resolved (OkPacket (mkOk 0 0)), seeded)
  ∧ deleteStatistic (query binary) 9 seeded
    = (Resolved (OkPacket (mkOk 0 0)), seeded).
Proof.
  assert (Hu : ∀ u, u ∈ users seeded → User.id u ≠ 9%Z).
  { intros u Hu. simpl in Hu.
    repeat (apply elem_of_cons in Hu as [->|Hu]; [done|]).
    by apply elem_of_nil in Hu. }
  assert (Hr : ∀ r, r ∈ statistics seeded → Statistic.id r ≠ 9%Z).
  { intros r Hr. simpl in Hr.
    repeat (apply elem_of_cons in Hr as [->|Hr]; [done|]).
    by apply elem_of_nil in Hr. }
  destruct (no_match_resolves_with_zero_rows binary seeded 9)
    as (Husers & Hstats & _ & _).
  destruct (Husers Hu) as [Hupd Hdel]. destruct (Hstats Hr) as [Hupd' Hdel'].
  repeat split; auto.
Defined.

(** ** The aggregate delete and the activity records *)

Section UnderSchema.
Variable S : schema.

Lemma deleteUsersWithLessThanKills_under threshold db :
  deleteUsersWithLessThanKills (query_under S) threshold db
  = match delete_users_under S
            (λ u, User.id u ∈ having_sum_below threshold (statistics db)) db with
    | (Err err, db') => (Rejected err, db')
    | (Rows r, db') => (Resolved r, db')
    end.
Proof. reflexivity. Qed.

Lemma deleteUser_under i db :
  deleteUser (query_under S) i db
  = match delete_users_under S (λ u, User.id u = i) db with
    | (Err err, db') => (Rejected err, db')
    | (Rows r, db') => (Resolved r, db')
    end.
Proof. reflexivity. Qed.

(** A record refers to a row that [gone] selects. *)
Lemma orphaned_iff (gone : User.t → Prop) `{∀ u, Decision (gone u)} db
    (r : Statistic.t) :
  Statistic.user_id r ∈ User.id <$> filter gone (users db)
  ↔ ∃ u, u ∈ users db ∧ gone u ∧ Statistic.user_id r = User.id u.
Proof.
  rewrite list_elem_of_fmap. split.
  - intros (u & Hr & Hu). apply list_elem_of_filter in Hu as [Hg Hu].
    by exists u.
  - intros (u & Hu & Hg & Hr). exists u. split; [done|].
    by apply list_elem_of_filter.
Qed.
End UnderSchema.

Lemma selected_iff threshold db (u : User.t) :
  User.id u ∈ having_sum_below threshold (statistics db)
  ↔ below_threshold threshold db u.
Proof. apply elem_of_having_sum_below. Qed.

(** C2, as stated, fails in a store that declares no foreign key: after the
    aggregate delete with threshold 10 on the seeded store, account 1 is
    gone and its activity records are still in the store. *)
Lemma cascades_under_counterexample :
  ¬ cascades_under (strict_schema NoForeignKey) 10 seeded.
Proof.
  intros H.
  apply (H bob (Statistic.mk 1 1 2 (jan 1))); [compute_done.. | done].
Qed.

(** C2, amended. The aggregate delete issues a single DELETE on the
    accounts; what becomes of the activity records of an account it removes
    is decided by the schema. Without a foreign key the statistics table is
    left as it was, so every removed account leaves its records, at least
    one, behind. With a cascading foreign key the records that refer to a
    removed account are removed and no other, so none refers to a removed
    account afterwards. With a restricting foreign key the call rejects and
    changes nothing whenever it selects an account, and resolves with zero
    rows otherwise. Unless it rejects, the accounts it removes are the
    selected ones under every schema. *)
Theorem aggregate_delete_under_schema S threshold db :
  (foreign_key S = NoForeignKey →
   statistics (deleteUsersWithLessThanKills (query_under S) threshold db).2
   = statistics db
   ∧ ∀ u, u ∈ users db →
          u ∉ users (deleteUsersWithLessThanKills (query_under S) threshold db).2 →
          ∃ r, r ∈ statistics
                     (deleteUsersWithLessThanKills (query_under S) threshold db).2
               ∧ Statistic.user_id r = User.id u)
  ∧ (foreign_key S = OnDeleteCascade →
     cascades_under S threshold db
     ∧ ∀ r, r ∈ statistics
                  (deleteUsersWithLessThanKills (query_under S) threshold db).2
            ↔ r ∈ statistics db
              ∧ ¬ ∃ u, u ∈ users db ∧ below_threshold threshold db u
                       ∧ Statistic.user_id r = User.id u)
  ∧ (foreign_key S = OnDeleteRestrict →
     ((∃ u, u ∈ users db ∧ below_threshold threshold db u) →
      deleteUsersWithLessThanKills (query_under S) threshold db
      = (Rejected ER_ROW_IS_REFERENCED, db))
     ∧ (¬ (∃ u, u ∈ users db ∧ below_threshold threshold db u) →
        deleteUsersWithLessThanKills (query_under S) threshold db
        = (Resolved (OkPacket (mkOk 0 0)), db)))
  ∧ (foreign_key S ≠ OnDeleteRestrict →
     ∀ u, u ∈ users (deleteUsersWithLessThanKills (query_under S) threshold db).2
          ↔ u ∈ users db ∧ ¬ below_threshold threshold db u).
Proof.
  rewrite deleteUsersWithLessThanKills_under. unfold cascades_under.
  rewrite deleteUsersWithLessThanKills_under. unfold delete_users_under.
  split; [|split; [|split]]; intros Hfk.
  - rewrite Hfk. simpl. split; [done|]. intros u Hu Hgone.
    destruct (decide (User.id u ∈ having_sum_below threshold (statistics db)))
      as [Hsel|Hsel].
    + apply selected_iff in Hsel as [(r & Hr & Hid) _]. by exists r.
    + destruct Hgone. by apply list_elem_of_filter.
  - rewrite Hfk. simpl. split.
    + intros u r Hu Hgone Hr Hid.
      apply list_elem_of_filter in Hr as [Hr _]. apply Hr.
      apply orphaned_iff. exists u. split; [done|]. split; [|done].
      destruct (decide (User.id u ∈ having_sum_below threshold (statistics db)))
        as [Hsel|Hsel]; [done|].
      destruct Hgone. by apply list_elem_of_filter.
    + intros r. rewrite list_elem_of_filter, orphaned_iff.
      setoid_rewrite selected_iff. tauto.
  - rewrite Hfk. split.
    + intros (u & Hu & Hsel). rewrite decide_True; [done|].
      destruct Hsel as [(r & Hr & Hid) Hsum]. apply Exists_exists.
      exists r. split; [done|]. apply orphaned_iff. exists u.
      split; [done|]. split; [|done]. apply selected_iff.
      split; [by exists r | done].
    + intros Hnone.
      assert (Hkeep : ∀ u, u ∈ users db →
                ¬ User.id u ∈ having_sum_below threshold (statistics db)).
      { intros u Hu Hsel. apply Hnone. exists u. split; [done|].
        by apply selected_iff. }
      rewrite decide_False.
      * rewrite filter_none, filter_all by done. by destruct db.
      * rewrite Exists_exists. intros (r & _ & Hr).
        apply orphaned_iff in Hr as (u & Hu & Hsel & _). by apply (Hkeep u).
  - intros u. destruct (foreign_key S); [| |done]; simpl;
      rewrite list_elem_of_filter, selected_iff; tauto.
Qed.

Lemma aggregate_delete_under_schema_witness :
  foreign_key (strict_schema NoForeignKey) = NoForeignKey
  ∧ foreign_key (strict_schema OnDeleteCascade) = OnDeleteCascade
  ∧ foreign_key (strict_schema OnDeleteRestrict) = OnDeleteRestrict
  ∧ bob ∈ users seeded ∧ below_threshold 10 seeded bob
  ∧ statistics
      (deleteUsersWithLessThanKills (query_under (strict_schema NoForeignKey)) 10
         seeded).2
    = statistics seeded
  ∧ cascades_under (strict_schema OnDeleteCascade) 10 seeded
  ∧ deleteUsersWithLessThanKills (query_under (strict_schema OnDeleteRestrict)) 10
      seeded
    = (Rejected ER_ROW_IS_REFERENCED, seeded).
Proof.
  assert (Hbob : bob ∈ users seeded) by compute_done.
  assert (Hsel : below_threshold 10 seeded bob).
  { split; [|compute_done].
    exists (Statistic.mk 1 1 2 (jan 1)). split; [compute_done | done]. }
  destruct (aggregate_delete_under_schema (strict_schema NoForeignKey) 10 seeded)
    as (Hnone & _).
  destruct (aggregate_delete_under_schema (strict_schema OnDeleteCascade) 10 seeded)
    as (_ & Hcascade & _).
  destruct (aggregate_delete_under_schema (strict_schema OnDeleteRestrict) 10 seeded)
    as (_ & _ & Hrestrict & _).
  split; [done|]. split; [done|]. split; [done|]. split; [done|]. split; [done|].
  split; [by apply Hnone|]. split; [by apply Hcascade|].
  apply Hrestrict; [done|]. by exists bob.
Defined.

(** ** Pagination *)

(** C7. For non-negative [limit] and [offset],
    [getStatisticsWithLimitOffset] resolves with the rows at positions
    [offset+1 .. offset+limit] of the statistics table in store order: row
    [i] of the page is row [offset + i] of the table, the page has at most
    [limit] rows, and it is shorter than [limit] only when the table has no
    more rows after the offset. The store is left as it was. *)
Theorem getStatisticsWithLimitOffset_page fold limit offset db :
  (0 ≤ limit)%Z → (0 ≤ offset)%Z →
  ∃ page,
    getStatisticsWithLimitOffset (query fold) limit offset db
    = (Resolved (StatisticRows page), db)
    ∧ (∀ i, i < Z.to_nat limit →
            page !! i = statistics db !! (Z.to_nat offset + i))
    ∧ length page
      = Nat.min (Z.to_nat limit) (length (statistics db) - Z.to_nat offset)
    ∧ (length page < Z.to_nat limit →
       length page = length (statistics db) - Z.to_nat offset).
Proof.
  intros Hl Ho.
  exists (take (Z.to_nat limit) (drop (Z.to_nat offset) (statistics db))).
  split; [|split; [|split]].
  - rewrite getStatisticsWithLimitOffset_query. unfold limit_offset.
    by rewrite decide_True by done.
  - intros i Hi. by rewrite lookup_take_lt, lookup_drop.
  - by rewrite length_take, length_drop.
  - rewrite length_take, length_drop. lia.
Qed.

Lemma getStatisticsWithLimitOffset_page_witness :
  (0 ≤ 2)%Z ∧ (0 ≤ 2)%Z
  ∧ getStatisticsWithLimitOffset (query binary) 2 2 seeded
    = (Resolved (StatisticRows
         [Statistic.mk 3 1 1 (jan 3); Statistic.mk 4 2 50 (jan 3)]), seeded).
Proof.
  split; [lia|]. split; [lia|].
  destruct (getStatisticsWithLimitOffset_page binary 2 2 seeded)
    as (page & Heq & _); [lia | lia |].
  rewrite Heq. vm_compute in Heq. by injection Heq as <-.
Defined.

(** X13. A negative limit or offset is passed on unguarded and refused by
    the store: the call rejects and leaves the store as it was. *)
Lemma getStatisticsWithLimitOffset_negative fold limit offset db :
  (limit < 0 ∨ offset < 0)%Z →
  getStatisticsWithLimitOffset (query fold) limit offset db
  = (Rejected ER_PARSE_ERROR, db).
Proof.
  intros H. rewrite getStatisticsWithLimitOffset_query. unfold limit_offset.
  by rewrite decide_False by lia.
Qed.

(** ** Date ranges *)

(** C6. For [startDate ≤ endDate], [searchStatisticsByDateRange] resolves
    with exactly the activity records whose date [d] satisfies
    [startDate ≤ d ≤ endDate], both ends included, in store order; when the
    two dates are equal these are the records of that day. *)
Theorem searchStatisticsByDateRange_inclusive fold startDate endDate db :
  date_le startDate endDate →
  ∃ l,
    searchStatisticsByDateRange (query fold) startDate endDate db
    = (Resolved (StatisticRows l), db)
    ∧ l = filter (λ r, date_le startDate (Statistic.date r)
                       ∧ date_le (Statistic.date r) endDate) (statistics db)
    ∧ (startDate = endDate →
       l = filter (λ r, Statistic.date r = startDate) (statistics db)).
Proof.
  intros _. eexists. split; [apply searchStatisticsByDateRange_query|]. split.
  - apply list_filter_iff. intros r. apply between_spec.
  - intros <-. apply list_filter_iff. intros r. rewrite between_spec. split.
    + intros [H1 H2]. by apply date_le_antisym.
    + intros ->. split; apply date_le_refl.
Qed.

Lemma searchStatisticsByDateRange_inclusive_witness :
  date_le (jan 1) (jan 3)
  ∧ searchStatisticsByDateRange (query binary) (jan 1) (jan 3) seeded
    = (Resolved (StatisticRows
         [Statistic.mk 1 1 2 (jan 1); Statistic.mk 2 1 2 (jan 2);
          Statistic.mk 3 1 1 (jan 3); Statistic.mk 4 2 50 (jan 3)]), seeded).
Proof.
  assert (H : date_le (jan 1) (jan 3)) by compute_done.
  split; [done|].
  destruct (searchStatisticsByDateRange_inclusive binary (jan 1) (jan 3) seeded H)
    as (l & Heq & _ & _).
  rewrite Heq. vm_compute in Heq. by injection Heq as <-.
Defined.

(** ** Listing the accounts *)

(** The class of lines 95-210 lists every account in ascending handle
    order. *)
Lemma getAllUsers_sorted fold db :
  ∃ l, getAllUsers (query fold) db = (Resolved (UserRows l), db)
       ∧ l ≡ₚ users db
       ∧ StronglySorted (username_le fold) l.
Proof.
  eexists. split; [apply getAllUsers_query|]. split.
  - apply order_by_username_perm.
  - apply order_by_username_sorted.
Qed.

Lemma FirstCopy_getAllUsers_query fold db :
  FirstCopy.getAllUsers (query fold) db = (Resolved (UserRows (users db)), db).
Proof. reflexivity. Qed.

(** C5. The [getAllUsers] of lines 45-48 selects without ORDER BY: on the
    seeded store (bob inserted before alice) it resolves with the rows in
    store order, which is not ascending by handle, under the binary and
    under the case-insensitive collation alike. *)
Theorem FirstCopy_getAllUsers_unordered :
  FirstCopy.getAllUsers (query binary) seeded
  = (Resolved (UserRows [bob; alice; alicia]), seeded)
  ∧ ¬ Sorted (username_le binary) [bob; alice; alicia]
  ∧ ¬ Sorted (username_le lower) [bob; alice; alicia]
  ∧ getAllUsers (query binary) seeded
    = (Resolved (UserRows [alice; alicia; bob]), seeded).
Proof.
  split; [reflexivity|]. split; [compute_done|]. split; [compute_done|].
  by vm_compute.
Qed.

(** ** Searching by fragments *)

Lemma contains_literal fold h f :
  (∀ c, fold c = c) → contains fold h f ↔ substring_of f h.
Proof.
  intros Hid. assert (Hmap : ∀ l : list ascii, fold <$> l = l).
  { intros l. induction l as [|c l IH]; csimpl; [done | by rewrite Hid, IH]. }
  unfold contains, substring_of. split.
  - intros (pre & mid & post & Hh & Hm). rewrite !Hmap in Hm.
    exists pre, post. by rewrite <- Hm.
  - intros (pre & post & Hh). exists pre, (chars f), post. by rewrite !Hmap.
Qed.

Lemma substring_of_chars f h c : substring_of f h → c ∈ chars f → c ∈ chars h.
Proof.
  intros (pre & post & ->) Hc. rewrite !elem_of_app. right. by left.
Qed.

Section Search.
Variable fold : ascii → ascii.

Lemma like_filter_all (l : list User.t) :
  filter (λ r, like fold (User.username r) ("%" +:+ empty_fragment +:+ "%") = true) l = l.
Proof. apply filter_all. intros u _. apply like_empty_fragment. Qed.

Lemma searchUserByUsername_rows fragment db :
  plain fragment = true →
  ∀ u, u ∈ order_by_username fold
             (filter (λ r, like fold (User.username r)
                             ("%" +:+ fragment +:+ "%") = true) (users db))
       ↔ u ∈ users db ∧ contains fold (User.username u) fragment.
Proof.
  intros Hf u.
  rewrite elem_of_order_by_username, list_elem_of_filter, like_plain_fragment
    by done. tauto.
Qed.

Lemma searchUserByDetails_rows username first_name last_name db :
  plain username = true → plain first_name = true → plain last_name = true →
  ∀ u, u ∈ order_by_username fold
             (filter (λ r, like fold (User.username r) ("%" +:+ username +:+ "%")
                           && like fold (User.first_name r)
                                ("%" +:+ first_name +:+ "%")
                           && like fold (User.last_name r)
                                ("%" +:+ last_name +:+ "%") = true) (users db))
       ↔ u ∈ users db
         ∧ contains fold (User.username u) username
         ∧ contains fold (User.first_name u) first_name
         ∧ contains fold (User.last_name u) last_name.
Proof.
  intros Hu Hf Hl u.
  rewrite elem_of_order_by_username, list_elem_of_filter, !andb_true_iff.
  rewrite !like_plain_fragment by done. tauto.
Qed.

Lemma ordered_filter_submseteq (P : User.t → Prop) `{∀ x, Decision (P x)}
    (l : list User.t) :
  order_by_username fold (filter P l) ⊆+ l.
Proof.
  rewrite order_by_username_perm. apply sublist_submseteq, sublist_filter.
Qed.
End Search.

(** C4, as stated, fails: with the fragment [_] the search returns alice,
    whose handle has no underscore in it. *)
Lemma literal_handle_search_counterexample :
  ¬ literal_handle_search binary "_" seeded.
Proof.
  intros (l & Hl & Hiff & _). vm_compute in Hl. injection Hl as <-.
  destruct (Hiff alice) as [H _]. destruct H as [_ Hsub]; [compute_done|].
  assert (Hc : "_"%char ∈ chars (User.username alice)).
  { apply (substring_of_chars "_"); [done | compute_done]. }
  revert Hc. compute_done.
Qed.

(** C4, amended. For every fragment free of the LIKE metacharacters [%],
    [_] and [\], [searchUserByUsername] resolves with exactly the accounts
    whose handle contains the fragment as a substring, characters being
    compared as the collation compares them (literally when the collation is
    binary), no row more often than it is stored, in ascending handle order; the
    empty fragment returns every account. *)
Theorem searchUserByUsername_plain_fragment fold fragment db :
  plain fragment = true →
  ∃ l,
    searchUserByUsername (query fold) fragment db = (Resolved (UserRows l), db)
    ∧ (∀ u, u ∈ l ↔ u ∈ users db ∧ contains fold (User.username u) fragment)
    ∧ ((∀ c, fold c = c) →
       ∀ u, u ∈ l ↔ u ∈ users db ∧ substring_of fragment (User.username u))
    ∧ l ⊆+ users db
    ∧ StronglySorted (username_le fold) l
    ∧ (fragment = empty_fragment → l ≡ₚ users db).
Proof.
  intros Hf. eexists. split; [apply searchUserByUsername_query|].
  split; [by apply searchUserByUsername_rows|]. split; [|split; [|split]].
  - intros Hid u. rewrite searchUserByUsername_rows by done.
    by rewrite contains_literal.
  - apply ordered_filter_submseteq.
  - apply order_by_username_sorted.
  - intros ->. by rewrite order_by_username_perm, like_filter_all.
Qed.

Lemma searchUserByUsername_plain_fragment_witness :
  plain "ali" = true
  ∧ searchUserByUsername (query binary) "ali" seeded
    = (Resolved (UserRows [alice; alicia]), seeded)
  ∧ contains binary (User.username alice) "ali"
  ∧ ¬ contains binary (User.username bob) "ali".
Proof.
  destruct (searchUserByUsername_plain_fragment binary "ali" seeded)
    as (l & Heq & Hiff & _); [reflexivity|].
  split; [reflexivity|]. split; [reflexivity|].
  pose proof Heq as Hl. vm_compute in Hl. injection Hl as <-. split.
  - apply (Hiff alice). compute_done.
  - intros Hbob. assert (Hin : bob ∈ [alice; alicia]).
    { apply Hiff. split; [compute_done | done]. }
    revert Hin. compute_done.
Defined.

(** C3, as stated, fails: with the given-name fragment [_] the search
    returns alice, whose given name [A] has no underscore in it. *)
Lemma literal_details_search_counterexample :
  ¬ literal_details_search binary "ali" "_" empty_fragment seeded.
Proof.
  intros (l & Hl & Hiff & _). vm_compute in Hl. injection Hl as <-.
  destruct (Hiff alice) as [H _]. destruct H as (_ & _ & Hsub & _); [compute_done|].
  assert (Hc : "_"%char ∈ chars (User.first_name alice)).
  { apply (substring_of_chars "_"); [done | compute_done]. }
  revert Hc. compute_done.
Qed.

(** C3, amended. For all three fragments free of the LIKE metacharacters
    [%], [_] and [\], [searchUserByDetails] resolves with exactly the
    accounts whose handle, given name and family name each contain the
    corresponding fragment as a substring (a conjunction; characters compared
    as the collation compares them, literally when it is binary; an empty
    fragment matches every value), no row more often than it is stored, in
    ascending handle order. *)
Theorem searchUserByDetails_plain_fragments fold username first_name last_name db :
  plain username = true → plain first_name = true → plain last_name = true →
  ∃ l,
    searchUserByDetails (query fold) username first_name last_name db
    = (Resolved (UserRows l), db)
    ∧ (∀ u, u ∈ l ↔ u ∈ users db
                    ∧ contains fold (User.username u) username
                    ∧ contains fold (User.first_name u) first_name
                    ∧ contains fold (User.last_name u) last_name)
    ∧ ((∀ c, fold c = c) →
       ∀ u, u ∈ l ↔ u ∈ users db
                    ∧ substring_of username (User.username u)
                    ∧ substring_of first_name (User.first_name u)
                    ∧ substring_of last_name (User.last_name u))
    ∧ l ⊆+ users db
    ∧ StronglySorted (username_le fold) l
    ∧ (∀ h, contains fold h empty_fragment).
Proof.
  intros Hu Hf Hl. eexists. split; [apply searchUserByDetails_query|].
  split; [by apply searchUserByDetails_rows|]. split; [|split; [|split]].
  - intros Hid u. rewrite searchUserByDetails_rows by done.
    by rewrite !contains_literal.
  - apply ordered_filter_submseteq.
  - apply order_by_username_sorted.
  - apply contains_empty.
Qed.

Lemma searchUserByDetails_plain_fragments_witness :
  plain "ali" = true ∧ plain "A" = true ∧ plain empty_fragment = true
  ∧ searchUserByDetails (query binary) "ali" "A" empty_fragment seeded
    = (Resolved (UserRows [alice]), seeded)
  ∧ ¬ contains binary (User.first_name alicia) "A".
Proof.
  destruct (searchUserByDetails_plain_fragments binary "ali" "A" empty_fragment seeded)
    as (l & Heq & Hiff & _); [reflexivity..|].
  split; [reflexivity|]. split; [reflexivity|]. split; [reflexivity|].
  pose proof Heq as Hl. vm_compute in Hl. injection Hl as <-.
  split; [reflexivity|].
  intros Hc. assert (Hin : alicia ∈ [alice]).
  { apply Hiff. split; [compute_done|]. split; [|split; [done|]].
    - by exists [], (chars "ali"), (chars "cia").
    - apply contains_empty. }
  revert Hin. compute_done.
Defined.

(** ** Wildcards inside a fragment *)

Section Wildcards.
Variable fold : ascii → ascii.

End Wildcards.




(** ** Templates and bound arguments *)

(** C9. Every method hands the executor a template that depends on the
    method alone: two calls of one method submit the same template, whatever
    their inputs, and the inputs travel in the argument list only, one
    argument per placeholder. The method does nothing but run the executor
    on that template and that list. The same holds of the search method of
    the first copy of the class, the only one there that takes an input and
    differs from its namesake. *)
Theorem template_is_fixed :
  (∀ a b, same_method a b = true →
          (call submitted a).1 = (call submitted b).1)
  ∧ (∀ a, placeholders (call submitted a).1 = length (call submitted a).2)
  ∧ (∀ (R : Type) (q : string → list value → R) a,
       call q a = q (call submitted a).1 (call submitted a).2)
  ∧ (∀ x y, (FirstCopy.searchUserByUsername submitted x).1
            = (FirstCopy.searchUserByUsername submitted y).1).
Proof.
  split; [|split; [|split]].
  - intros [] []; simpl; intros Hsame; try discriminate Hsame; reflexivity.
  - intros []; reflexivity.
  - intros R q []; reflexivity.
  - reflexivity.
Qed.

Lemma template_is_fixed_witness :
  same_method (SearchUserByUsername "alice")
    (SearchUserByUsername "' OR '1'='1") = true
  ∧ (call submitted (SearchUserByUsername "alice")).1
    = (call submitted (SearchUserByUsername "' OR '1'='1")).1
  ∧ (call submitted (SearchUserByUsername "' OR '1'='1")).2
    = [VStr "%' OR '1'='1%"].
Proof.
  split; [reflexivity|]. split; [|reflexivity].
  apply (proj1 template_is_fixed). reflexivity.
Defined.

(** * Further properties of the repository class *)

(** ** More of what the methods evaluate to *)

Section MoreMethods.
Variable fold : ascii → ascii.

Lemma createUser_query data db :
  createUser (query fold) data db
  = (Resolved (OkPacket (mkOk 1 (next_user_id db))),
     mkStore (users db ++ [new_user data db]) (statistics db)
       (next_user_id db + 1)%Z (next_statistic_id db)).
Proof. reflexivity. Qed.

Lemma createStatistic_query data db :
  createStatistic (query fold) data db
  = (Resolved (OkPacket (mkOk 1 (next_statistic_id db))),
     mkStore (users db) (statistics db ++ [new_statistic data db])
       (next_user_id db) (next_statistic_id db + 1)%Z).
Proof. reflexivity. Qed.

Lemma getAllStatistics_query db :
  getAllStatistics (query fold) db = (Resolved (StatisticRows (statistics db)), db).
Proof. reflexivity. Qed.

Lemma searchStatisticsByDate_query d db :
  searchStatisticsByDate (query fold) d db
  = (Resolved (StatisticRows (filter (λ r, Statistic.date r = d) (statistics db))),
     db).
Proof. reflexivity. Qed.

Lemma FirstCopy_searchUserByUsername_query username db :
  FirstCopy.searchUserByUsername (query fold) username db
  = (Resolved (UserRows
       (filter (λ r, like fold (User.username r) ("%" +:+ username +:+ "%") = true)
          (users db))), db).
Proof. reflexivity. Qed.
End MoreMethods.

(** ** Creating an account *)

Lemma new_user_not_stored data db : ids_fresh db → new_user data db ∉ users db.
Proof.
  intros (_ & Hlt & _) Hin. rewrite Forall_forall in Hlt.
  apply Hlt in Hin. simpl in Hin. lia.
Qed.

(** X1. In a store with fresh ids, [createUser] resolves with one affected
    row and the id it assigned; the row it adds was not there before, and a
    following [getAllUsers] lists that row and the accounts already stored,
    nothing else, in ascending handle order. *)
Theorem createUser_then_getAllUsers fold data db :
  ids_fresh db →
  (createUser (query fold) data db).1
  = Resolved (OkPacket (mkOk 1 (next_user_id db)))
  ∧ (new_user data db ∉ users db)
  ∧ ∃ l, getAllUsers (query fold) (createUser (query fold) data db).2
         = (Resolved (UserRows l), (createUser (query fold) data db).2)
         ∧ l ≡ₚ new_user data db :: users db
         ∧ StronglySorted (username_le fold) l.
Proof.
  intros Hfresh. split; [done|]. split; [by apply new_user_not_stored|].
  eexists. split; [apply getAllUsers_query|]. split.
  - rewrite order_by_username_perm, createUser_query. simpl.
    by rewrite Permutation_app_comm.
  - apply order_by_username_sorted.
Qed.

Lemma seeded_ids_fresh : ids_fresh seeded.
Proof. repeat split; compute_done. Qed.

Lemma createUser_then_getAllUsers_witness :
  ids_fresh seeded
  ∧ getAllUsers (query binary)
      (createUser (query binary) (UserData.mk "carol" "Secret123" "Carol" "W")
         seeded).2
    = (Resolved (UserRows
         [alice; alicia; bob; User.mk 4 "carol" "Secret123" "Carol" "W"]),
       (createUser (query binary) (UserData.mk "carol" "Secret123" "Carol" "W")
          seeded).2).
Proof.
  split; [apply seeded_ids_fresh|].
  destruct (createUser_then_getAllUsers binary
              (UserData.mk "carol" "Secret123" "Carol" "W") seeded
              seeded_ids_fresh) as (_ & _ & l & Heq & _).
  rewrite Heq. vm_compute in Heq. by injection Heq as <-.
Defined.

(** X2. An account just created is found by [searchUserByUsername] with
    every metacharacter-free fragment its handle contains, its whole handle
    included. *)
Theorem createUser_then_search fold data fragment db :
  plain fragment = true →
  contains fold (UserData.username data) fragment →
  ∃ l, searchUserByUsername (query fold) fragment
         (createUser (query fold) data db).2
       = (Resolved (UserRows l), (createUser (query fold) data db).2)
       ∧ new_user data db ∈ l.
Proof.
  intros Hf Hc. eexists. split; [apply searchUserByUsername_query|].
  apply searchUserByUsername_rows; [done|]. split; [|done].
  rewrite createUser_query. simpl. rewrite elem_of_app. right. by left.
Qed.

Lemma contains_self fold h : contains fold h h.
Proof. exists [], (chars h), []. by rewrite app_nil_r. Qed.

Lemma createUser_then_search_witness :
  plain "carol" = true
  ∧ contains binary "carol" "carol"
  ∧ ∃ l, searchUserByUsername (query binary) "carol"
           (createUser (query binary) (UserData.mk "carol" "Secret123" "Carol" "W")
              seeded).2
         = (Resolved (UserRows l),
            (createUser (query binary) (UserData.mk "carol" "Secret123" "Carol" "W")
               seeded).2)
         ∧ User.mk 4 "carol" "Secret123" "Carol" "W" ∈ l.
Proof.
  split; [reflexivity|]. split; [apply contains_self|].
  apply (createUser_then_search binary
           (UserData.mk "carol" "Secret123" "Carol" "W") "carol" seeded);
    [reflexivity | apply contains_self].
Defined.

(** ** Replacing and removing by id *)

Lemma update_keeps_ids i data (l : list User.t) :
  User.id <$> ((λ r, if decide (User.id r = i) then set_user data r else r) <$> l)
  = User.id <$> l.
Proof.
  rewrite <- list_fmap_compose. apply list_fmap_ext. intros _ u _. simpl.
  by case_decide.
Qed.

(** X3. [updateUser] resolves; it keeps every row at its place and with
    its id, gives the rows with that id the four fields of [data] and leaves
    the other rows and the statistics table alone. Running the same update
    again changes nothing more. *)
Theorem updateUser_replaces_in_place fold id data db :
  is_Some (acknowledged (updateUser (query fold) id data db))
  ∧ User.id <$> users (updateUser (query fold) id data db).2
    = User.id <$> users db
  ∧ (∀ i u, users db !! i = Some u →
       users (updateUser (query fold) id data db).2 !! i
       = Some (if decide (User.id u = id)
               then User.mk id (UserData.username data) (UserData.password data)
                      (UserData.first_name data) (UserData.last_name data)
               else u))
  ∧ statistics (updateUser (query fold) id data db).2 = statistics db
  ∧ (updateUser (query fold) id data (updateUser (query fold) id data db).2).2
    = (updateUser (query fold) id data db).2.
Proof.
  rewrite !updateUser_query. unfold acknowledged, update_user. simpl.
  split; [done|]. split; [apply update_keeps_ids|]. split; [|split; [done|]].
  - intros i u Hu. rewrite list_lookup_fmap, Hu. simpl.
    case_decide as Hid; [|done]. by rewrite <- Hid.
  - f_equal. rewrite <- list_fmap_compose. apply list_fmap_ext.
    intros _ u _. simpl. by repeat case_decide.
Qed.

Lemma updateUser_replaces_in_place_witness :
  users seeded !! 1 = Some alice
  ∧ users (updateUser (query binary) 2
             (UserData.mk "alyx" "Secret123" "A" "X") seeded).2 !! 1
    = Some (User.mk 2 "alyx" "Secret123" "A" "X").
Proof.
  split; [reflexivity|].
  destruct (updateUser_replaces_in_place binary 2
              (UserData.mk "alyx" "Secret123" "A" "X") seeded)
    as (_ & _ & Hrow & _).
  by rewrite (Hrow 1 alice).
Defined.

(** X4. [deleteUser] removes from the users table the rows with that id
    and no other and keeps the remaining rows in their order, resolving with
    the number of rows it removed; what becomes of the removed account's
    activity records is decided by the schema. Without a foreign key they
    stay; with a cascading one they are removed, and no other record; with a
    restricting one the call rejects and changes nothing when the account
    exists and has a record. *)
Theorem deleteUser_under_schema S id db :
  (foreign_key S = NoForeignKey →
   statistics (deleteUser (query_under S) id db).2 = statistics db)
  ∧ (foreign_key S = OnDeleteCascade →
     ∀ r, r ∈ statistics (deleteUser (query_under S) id db).2
          ↔ r ∈ statistics db
            ∧ ¬ (Statistic.user_id r = id ∧ ∃ u, u ∈ users db ∧ User.id u = id))
  ∧ (foreign_key S = OnDeleteRestrict →
     (∃ u r, u ∈ users db ∧ User.id u = id
             ∧ r ∈ statistics db ∧ Statistic.user_id r = id) →
     deleteUser (query_under S) id db = (Rejected ER_ROW_IS_REFERENCED, db))
  ∧ ((foreign_key S = OnDeleteRestrict →
      ¬ ∃ u r, u ∈ users db ∧ User.id u = id
               ∧ r ∈ statistics db ∧ Statistic.user_id r = id) →
     ∃ n, acknowledged (deleteUser (query_under S) id db) = Some n
          ∧ length (users (deleteUser (query_under S) id db).2) + n
            = length (users db)
          ∧ (∀ u, u ∈ users (deleteUser (query_under S) id db).2
                  ↔ u ∈ users db ∧ User.id u ≠ id)
          ∧ users (deleteUser (query_under S) id db).2 `sublist_of` users db).
Proof.
  rewrite deleteUser_under. unfold delete_users_under.
  assert (Horphan : ∀ r : Statistic.t,
    Statistic.user_id r ∈ User.id <$> filter (λ u, User.id u = id) (users db)
    ↔ Statistic.user_id r = id ∧ ∃ u, u ∈ users db ∧ User.id u = id).
  { intros r. rewrite (orphaned_iff (λ u, User.id u = id)). split.
    - intros (u & Hu & Hid & Hr). split; [congruence | by exists u].
    - intros (Hr & u & Hu & Hid). exists u. split; [done|]. split; congruence. }
  assert (Hexists :
    Exists (λ r : Statistic.t,
              Statistic.user_id r
                ∈ User.id <$> filter (λ u, User.id u = id) (users db))
      (statistics db)
    ↔ ∃ u r, u ∈ users db ∧ User.id u = id
             ∧ r ∈ statistics db ∧ Statistic.user_id r = id).
  { rewrite Exists_exists. split.
    - intros (r & Hr & Ho). apply Horphan in Ho as (Hid & u & Hu & Hu').
      by exists u, r.
    - intros (u & r & Hu & Hu' & Hr & Hid). exists r. split; [done|].
      apply Horphan. split; [done|]. by exists u. }
  assert (Husers :
    ∃ n, Some (length (filter (λ u, User.id u = id) (users db))) = Some n
         ∧ length (filter (λ u, ¬ User.id u = id) (users db)) + n
           = length (users db)
         ∧ (∀ u, u ∈ filter (λ u, ¬ User.id u = id) (users db)
                 ↔ u ∈ users db ∧ User.id u ≠ id)
         ∧ filter (λ u, ¬ User.id u = id) (users db) `sublist_of` users db).
  { eexists. split; [done|]. split; [|split].
    - pose proof (length_filter_complement (λ u, User.id u = id) (users db)).
      lia.
    - intros u. rewrite list_elem_of_filter. tauto.
    - apply sublist_filter. }
  split; [|split; [|split]].
  - by intros ->.
  - intros ->. simpl. intros r. rewrite list_elem_of_filter, Horphan. tauto.
  - intros -> Hchild. by rewrite decide_True by by apply Hexists.
  - intros Hfree. destruct (foreign_key S); simpl; [done | done |].
    rewrite decide_False; [done|]. rewrite Hexists. by apply Hfree.
Qed.

Lemma deleteUser_under_schema_witness :
  foreign_key (strict_schema OnDeleteCascade) = OnDeleteCascade
  ∧ foreign_key (strict_schema OnDeleteRestrict) = OnDeleteRestrict
  ∧ Statistic.id <$>
      statistics (deleteUser (query_under (strict_schema OnDeleteCascade)) 1
                    seeded).2
    = [4%Z; 5%Z]
  ∧ deleteUser (query_under (strict_schema OnDeleteRestrict)) 1 seeded
    = (Rejected ER_ROW_IS_REFERENCED, seeded)
  ∧ users (deleteUser (query_under (strict_schema OnDeleteRestrict)) 3 seeded).2
    = [bob; alice].
Proof.
  destruct (deleteUser_under_schema (strict_schema OnDeleteRestrict) 1 seeded)
    as (_ & _ & Hrestrict & _).
  split; [done|]. split; [done|]. split; [reflexivity|]. split; [|reflexivity].
  apply Hrestrict; [done|].
  exists bob, (Statistic.mk 1 1 2 (jan 1)).
  split; [compute_done|]. split; [done|]. split; [compute_done | done].
Defined.

(** ** Identifiers stay fresh *)

Lemma NoDup_fmap_filter {A} (f : A → Z) (P : A → Prop) `{∀ x, Decision (P x)}
    (l : list A) :
  NoDup (f <$> l) → NoDup (f <$> filter P l).
Proof.
  intros Hnd. eapply sublist_NoDup; [exact Hnd|].
  apply fmap_sublist, sublist_filter.
Qed.

Lemma Forall_filter_keep {A} (Q P : A → Prop) `{∀ x, Decision (P x)}
    (l : list A) :
  Forall Q l → Forall Q (filter P l).
Proof.
  rewrite !Forall_forall. intros HQ x Hx. apply HQ.
  by apply list_elem_of_filter in Hx as [_ Hx].
Qed.

Lemma update_statistic_keeps_ids i data (l : list Statistic.t) :
  Statistic.id <$>
    ((λ r, if decide (Statistic.id r = i) then set_statistic data r else r) <$> l)
  = Statistic.id <$> l.
Proof.
  rewrite <- list_fmap_compose. apply list_fmap_ext. intros _ u _. simpl.
  by case_decide.
Qed.

Lemma Forall_id_fmap {A} (f : A → Z) (g : A → A) (n : Z) (l : list A) :
  (∀ x, f (g x) = f x) →
  Forall (λ x, (f x < n)%Z) l → Forall (λ x, (f x < n)%Z) (g <$> l).
Proof.
  intros Hg Hl. rewrite Forall_fmap. eapply Forall_impl; [exact Hl|].
  intros x. simpl. by rewrite Hg.
Qed.

Lemma NoDup_snoc_fresh {A} (f : A → Z) (n : Z) (x : A) (l : list A) :
  f x = n → NoDup (f <$> l) → Forall (λ y, (f y < n)%Z) l →
  NoDup (f <$> (l ++ [x])).
Proof.
  intros Hx Hnd Hlt. rewrite fmap_app. apply NoDup_app. split; [done|].
  split; [|apply NoDup_singleton].
  intros k Hk Hk'. apply list_elem_of_singleton in Hk'. simpl in Hk'.
  apply list_elem_of_fmap in Hk as (y & -> & Hy).
  rewrite Forall_forall in Hlt. apply Hlt in Hy. lia.
Qed.

Lemma Forall_lt_succ {A} (f : A → Z) (n : Z) (l : list A) :
  Forall (λ y, (f y < n)%Z) l → Forall (λ y, (f y < n + 1)%Z) l.
Proof. intros Hl. eapply Forall_impl; [exact Hl|]. intros y. simpl. lia. Qed.

(** X5. Every method keeps the ids fresh: started in a store whose ids are
    pairwise distinct and below the counters, it ends in such a store. No
    method changes the id of a row or hands out an id twice. *)
Theorem ids_stay_fresh fold op db :
  ids_fresh db → ids_fresh (call (query fold) op db).2.
Proof.
  intros (Hu & Hul & Hs & Hsl).
  destruct op as [data|i data|i| |data|i data|i| |limit offset|d|d1 d2|u|u f l|k];
    simpl call.
  - rewrite createUser_query. unfold ids_fresh. simpl.
    split; [by apply (NoDup_snoc_fresh User.id (next_user_id db))|].
    split; [|done]. apply Forall_app. split; [by apply Forall_lt_succ|].
    apply Forall_singleton. simpl. lia.
  - rewrite updateUser_query. unfold ids_fresh, update_user. simpl.
    split; [by rewrite update_keeps_ids|]. split; [|done].
    apply (Forall_id_fmap User.id); [|done]. intros x. by case_decide.
  - rewrite deleteUser_query. unfold ids_fresh, delete_user. simpl.
    split; [by apply NoDup_fmap_filter|]. split; [|done].
    by apply Forall_filter_keep.
  - by rewrite getAllUsers_query.
  - rewrite createStatistic_query. unfold ids_fresh. simpl.
    split; [done|]. split; [done|].
    split; [by apply (NoDup_snoc_fresh Statistic.id (next_statistic_id db))|].
    apply Forall_app. split; [by apply Forall_lt_succ|].
    apply Forall_singleton. simpl. lia.
  - rewrite updateStatistic_query. unfold ids_fresh, update_statistic. simpl.
    split; [done|]. split; [done|].
    split; [by rewrite update_statistic_keeps_ids|].
    apply (Forall_id_fmap Statistic.id); [|done]. intros x. by case_decide.
  - rewrite deleteStatistic_query. unfold ids_fresh, delete_statistic. simpl.
    split; [done|]. split; [done|].
    split; [by apply NoDup_fmap_filter|]. by apply Forall_filter_keep.
  - by rewrite getAllStatistics_query.
  - rewrite getStatisticsWithLimitOffset_query.
    by destruct (limit_offset limit offset (statistics db)).
  - by rewrite searchStatisticsByDate_query.
  - by rewrite searchStatisticsByDateRange_query.
  - by rewrite searchUserByUsername_query.
  - by rewrite searchUserByDetails_query.
  - rewrite deleteUsersWithLessThanKills_query. unfold ids_fresh. simpl.
    split; [by apply NoDup_fmap_filter|]. split; [|done].
    by apply Forall_filter_keep.
Qed.

Lemma ids_stay_fresh_witness :
  ids_fresh seeded
  ∧ ids_fresh (call (query binary)
                 (CreateUser (UserData.mk "carol" "Secret123" "Carol" "W"))
                 seeded).2.
Proof.
  split; [apply seeded_ids_fresh|].
  apply (ids_stay_fresh binary), seeded_ids_fresh.
Defined.

Lemma filter_by_id_at_most_one {A} (f : A → Z) i (l : list A) :
  NoDup (f <$> l) → length (filter (λ x, f x = i) l) ≤ 1.
Proof.
  induction l as [|x l IH]; csimpl; [lia|].
  rewrite NoDup_cons. intros [Hx Hnd]. rewrite filter_cons.
  case_decide as Hid; [|by apply IH]. simpl.
  rewrite (filter_none (λ y, f y = i)); [simpl; lia|].
  intros y Hy Hfy. apply Hx. rewrite Hid, <- Hfy. by apply list_elem_of_fmap_2.
Qed.

(** X6. In a store with fresh ids the four writes by id ([updateUser],
    [deleteUser], [updateStatistic], [deleteStatistic]) acknowledge zero
    rows or one row, never more. *)
Theorem writes_by_id_affect_at_most_one_row fold id db :
  ids_fresh db →
  (∀ data, ∃ n, acknowledged (updateUser (query fold) id data db) = Some n ∧ n ≤ 1)
  ∧ (∃ n, acknowledged (deleteUser (query fold) id db) = Some n ∧ n ≤ 1)
  ∧ (∀ data, ∃ n, acknowledged (updateStatistic (query fold) id data db) = Some n
                  ∧ n ≤ 1)
  ∧ (∃ n, acknowledged (deleteStatistic (query fold) id db) = Some n ∧ n ≤ 1).
Proof.
  intros (Hu & _ & Hs & _).
  split; [|split; [|split]]; try intros data; eexists; (split; [reflexivity|]);
    simpl; by apply filter_by_id_at_most_one.
Qed.

Lemma writes_by_id_affect_at_most_one_row_witness :
  ids_fresh seeded
  ∧ acknowledged (deleteUser (query binary) 2 seeded) = Some 1
  ∧ acknowledged (deleteStatistic (query binary) 9 seeded) = Some 0.
Proof.
  split; [apply seeded_ids_fresh|].
  destruct (writes_by_id_affect_at_most_one_row binary 2 seeded seeded_ids_fresh)
    as (_ & (n & Hn & _) & _).
  split; [|reflexivity]. rewrite Hn. vm_compute in Hn. by injection Hn as <-.
Defined.

(** ** Which table a method touches *)

(** X7. Under every schema, a method whose template is a SELECT leaves
    the store as it was, whatever it resolves or rejects with; a method that
    writes the statistics table leaves the users table and its counter
    alone, whether the store accepts the write or refuses it; and
    [createUser] leaves the statistics table and its counter alone. *)
Theorem methods_touch_only_their_table S op db :
  (written op = None → (call (query_under S) op db).2 = db)
  ∧ (written op = Some StatisticsTable →
     users (call (query_under S) op db).2 = users db
     ∧ next_user_id (call (query_under S) op db).2 = next_user_id db)
  ∧ (∀ data,
       statistics (createUser (query_under S) data db).2 = statistics db
       ∧ next_statistic_id (createUser (query_under S) data db).2
         = next_statistic_id db).
Proof.
  split; [|split; [|done]].
  - destruct op as [data|i data|i| |data|i data|i| |limit offset|d|d1 d2|u|u f l|k];
      simpl written; intros H; try done.
    change (call (query_under S) (GetStatisticsWithLimitOffset limit offset) db)
      with (getStatisticsWithLimitOffset (query (collation S)) limit offset db).
    rewrite getStatisticsWithLimitOffset_query.
    by destruct (limit_offset limit offset (statistics db)).
  - destruct op as [data|i data|i| |data|i data|i| |limit offset|d|d1 d2|u|u f l|k];
      simpl written; intros H; try done.
    + change (call (query_under S) (CreateStatistic data) db)
        with (match insert_statistic_under S
                      (StatisticData.mk (StatisticData.user_id data)
                         (StatisticData.kills data) (StatisticData.date data)) db
              with
              | (Err err, db') => (Rejected err, db')
              | (Rows r, db') => (Resolved r, db')
              end).
      unfold insert_statistic_under.
      destruct (foreign_key S); try case_decide; done.
    + change (call (query_under S) (UpdateStatistic i data) db)
        with (match update_statistic_under S i
                      (StatisticData.mk (StatisticData.user_id data)
                         (StatisticData.kills data) (StatisticData.date data)) db
              with
              | (Err err, db') => (Rejected err, db')
              | (Rows r, db') => (Resolved r, db')
              end).
      unfold update_statistic_under.
      destruct (foreign_key S); try case_decide; done.
Qed.

Lemma methods_touch_only_their_table_witness :
  written (SearchUserByUsername "ali") = None
  ∧ (call (query_under (strict_schema OnDeleteCascade))
       (SearchUserByUsername "ali") seeded).2 = seeded
  ∧ written (CreateStatistic (StatisticData.mk 9 4 (jan 5))) = Some StatisticsTable
  ∧ call (query_under (strict_schema OnDeleteRestrict))
      (CreateStatistic (StatisticData.mk 9 4 (jan 5))) seeded
    = (Rejected ER_NO_REFERENCED_ROW, seeded).
Proof.
  split; [reflexivity|].
  split; [by apply (methods_touch_only_their_table
                     (strict_schema OnDeleteCascade))|].
  split; reflexivity.
Defined.

(** ** Activity records by date *)

Lemma date_le_trans a b c : date_le a b → date_le b c → date_le a c.
Proof.
  destruct a as [y m d], b as [y' m' d'], c as [y'' m'' d''].
  unfold date_le. simpl. intros H1 H2. lia.
Qed.

(** X8. [searchStatisticsByDate] resolves with the records of that day, in
    store order, and [searchStatisticsByDateRange] called with that day as
    both ends resolves with the same rows. *)
Theorem searchStatisticsByDate_is_one_day_range fold d db :
  searchStatisticsByDate (query fold) d db
  = (Resolved (StatisticRows (filter (λ r, Statistic.date r = d) (statistics db))),
     db)
  ∧ searchStatisticsByDateRange (query fold) d d db
    = searchStatisticsByDate (query fold) d db.
Proof.
  split; [apply searchStatisticsByDate_query|].
  rewrite searchStatisticsByDateRange_query, searchStatisticsByDate_query.
  do 3 f_equal. apply list_filter_iff. intros r. rewrite between_spec. split.
  - intros [H1 H2]. by apply date_le_antisym.
  - intros ->. split; apply date_le_refl.
Qed.

(** X9. When the start date is after the end date,
    [searchStatisticsByDateRange] resolves with no row; it does not reject
    and does not swap the ends. *)
Theorem searchStatisticsByDateRange_reversed fold startDate endDate db :
  ¬ date_le startDate endDate →
  searchStatisticsByDateRange (query fold) startDate endDate db
  = (Resolved (StatisticRows []), db).
Proof.
  intros Hrev. rewrite searchStatisticsByDateRange_query. do 3 f_equal.
  apply filter_none. intros r _. rewrite between_spec. intros [H1 H2].
  apply Hrev. by apply (date_le_trans _ (Statistic.date r)).
Qed.

Lemma searchStatisticsByDateRange_reversed_witness :
  ¬ date_le (jan 3) (jan 1)
  ∧ searchStatisticsByDateRange (query binary) (jan 3) (jan 1) seeded
    = (Resolved (StatisticRows []), seeded).
Proof.
  assert (H : ¬ date_le (jan 3) (jan 1)) by compute_done.
  split; [done|]. by apply searchStatisticsByDateRange_reversed.
Defined.

(** ** Recording activity *)



(** ** Pages *)

Lemma page_of fold limit offset db :
  (0 ≤ limit)%Z → (0 ≤ offset)%Z →
  getStatisticsWithLimitOffset (query fold) limit offset db
  = (Resolved (StatisticRows
       (take (Z.to_nat limit) (drop (Z.to_nat offset) (statistics db)))), db).
Proof.
  intros Hl Ho. rewrite getStatisticsWithLimitOffset_query. unfold limit_offset.
  by rewrite decide_True by done.
Qed.

(** X11. Consecutive pages concatenate: for non-negative arguments, the
    page of [limit1] rows at [offset] followed by the page of [limit2] rows
    at [offset + limit1] is the page of [limit1 + limit2] rows at [offset];
    no row is skipped and none is repeated. *)
Theorem consecutive_pages_concatenate fold limit1 limit2 offset db :
  (0 ≤ limit1)%Z → (0 ≤ limit2)%Z → (0 ≤ offset)%Z →
  ∃ p1 p2,
    getStatisticsWithLimitOffset (query fold) limit1 offset db
    = (Resolved (StatisticRows p1), db)
    ∧ getStatisticsWithLimitOffset (query fold) limit2 (offset + limit1) db
      = (Resolved (StatisticRows p2), db)
    ∧ getStatisticsWithLimitOffset (query fold) (limit1 + limit2) offset db
      = (Resolved (StatisticRows (p1 ++ p2)), db).
Proof.
  intros H1 H2 Ho. do 2 eexists.
  split; [by apply page_of|]. split; [apply page_of; lia|].
  rewrite page_of by lia. do 3 f_equal.
  rewrite !Z2Nat.inj_add by lia. by rewrite <- drop_drop, take_take_drop.
Qed.

Lemma consecutive_pages_concatenate_witness :
  (0 ≤ 2)%Z ∧ (0 ≤ 3)%Z ∧ (0 ≤ 1)%Z
  ∧ getStatisticsWithLimitOffset (query binary) (2 + 3) 1 seeded
    = (Resolved (StatisticRows
         ([Statistic.mk 2 1 2 (jan 2); Statistic.mk 3 1 1 (jan 3)]
          ++ [Statistic.mk 4 2 50 (jan 3); Statistic.mk 5 2 7 (jan 4)])), seeded).
Proof.
  split; [lia|]. split; [lia|]. split; [lia|].
  destruct (consecutive_pages_concatenate binary 2 3 1 seeded)
    as (p1 & p2 & Hp1 & Hp2 & Hp); [lia..|].
  rewrite Hp. vm_compute in Hp1, Hp2.
  injection Hp1 as <-. by injection Hp2 as <-.
Defined.

(** X12. The ends of pagination: an offset at or past the number of rows
    gives an empty page, a limit of zero gives an empty page, and a limit at
    least the number of rows at offset zero gives what [getAllStatistics]
    gives. None of them rejects. *)
Theorem page_edges fold limit offset db :
  (0 ≤ limit)%Z → (0 ≤ offset)%Z →
  (Z.of_nat (length (statistics db)) ≤ offset →
   getStatisticsWithLimitOffset (query fold) limit offset db
   = (Resolved (StatisticRows []), db))%Z
  ∧ getStatisticsWithLimitOffset (query fold) 0 offset db
    = (Resolved (StatisticRows []), db)
  ∧ (Z.of_nat (length (statistics db)) ≤ limit →
     getStatisticsWithLimitOffset (query fold) limit 0 db
     = getAllStatistics (query fold) db)%Z.
Proof.
  intros Hl Ho. split; [|split].
  - intros Hpast. rewrite page_of by done.
    rewrite drop_ge by lia. by rewrite take_nil.
  - by rewrite page_of by done.
  - intros Hall. rewrite page_of, getAllStatistics_query by done.
    change (Z.to_nat 0) with 0. rewrite drop_0.
    rewrite take_ge; [done|]. lia.
Qed.

Lemma page_edges_witness :
  (0 ≤ 2)%Z ∧ (0 ≤ 5)%Z
  ∧ getStatisticsWithLimitOffset (query binary) 2 5 seeded
    = (Resolved (StatisticRows []), seeded).
Proof.
  split; [lia|]. split; [lia|].
  destruct (page_edges binary 2 5 seeded) as (Hpast & _); [lia..|].
  apply Hpast. simpl. lia.
Defined.

Lemma getStatisticsWithLimitOffset_negative_witness :
  (-1 < 0 ∨ 0 < 0)%Z
  ∧ getStatisticsWithLimitOffset (query binary) (-1) 0 seeded
    = (Rejected ER_PARSE_ERROR, seeded).
Proof.
  assert (H : (-1 < 0 ∨ 0 < 0)%Z) by lia.
  split; [done|]. by apply getStatisticsWithLimitOffset_negative.
Defined.

(** ** The aggregate delete again *)




Lemma summed_count_nonneg uid (stats : list Statistic.t) :
  Forall (λ r, (0 ≤ Statistic.kills r)%Z) stats → (0 ≤ summed_count uid stats)%Z.
Proof.
  induction 1 as [|r stats Hr _ IH]; simpl; [lia|]. case_decide; lia.
Qed.

(** X15. When no activity record has a negative count, a threshold of zero
    or less removes no account: the call resolves with zero affected rows
    and leaves the store as it was. *)
Theorem deleteUsersWithLessThanKills_zero fold t db :
  Forall (λ r, (0 ≤ Statistic.kills r)%Z) (statistics db) → (t ≤ 0)%Z →
  deleteUsersWithLessThanKills (query fold) t db
  = (Resolved (OkPacket (mkOk 0 0)), db).
Proof.
  intros Hk Ht. rewrite deleteUsersWithLessThanKills_query.
  assert (Hnone : ∀ u : User.t,
            User.id u ∉ having_sum_below t (statistics db)).
  { intros u. rewrite elem_of_having_sum_below. intros [_ Hs].
    pose proof (summed_count_nonneg (User.id u) _ Hk). lia. }
  rewrite filter_none, filter_all by auto. by destruct db.
Qed.

Lemma deleteUsersWithLessThanKills_zero_witness :
  Forall (λ r, (0 ≤ Statistic.kills r)%Z) (statistics seeded) ∧ (0 ≤ 0)%Z
  ∧ deleteUsersWithLessThanKills (query binary) 0 seeded
    = (Resolved (OkPacket (mkOk 0 0)), seeded).
Proof.
  assert (H : Forall (λ r, (0 ≤ Statistic.kills r)%Z) (statistics seeded))
    by compute_done.
  split; [done|]. split; [lia|].
  apply deleteUsersWithLessThanKills_zero; [done | lia].
Defined.

(** ** Searching, whatever the fragment *)

(** X16. [searchUserByDetails] with empty given-name and family-name
    fragments is [searchUserByUsername]: for every handle fragment,
    wildcards included, the two calls resolve with the same rows. *)
Theorem searchUserByDetails_handle_only fold username db :
  searchUserByDetails (query fold) username empty_fragment empty_fragment db
  = searchUserByUsername (query fold) username db.
Proof.
  rewrite searchUserByDetails_query, searchUserByUsername_query.
  do 4 f_equal. apply list_filter_iff. intros u.
  by rewrite !like_empty_fragment, !andb_true_r.
Qed.

(** X17. For every fragment, wildcards included, [searchUserByUsername]
    and [searchUserByDetails] resolve, leave the store as it was, and return
    stored accounts only, none more often than it is stored, in ascending
    handle order. *)
Theorem search_returns_stored_accounts_in_order fold username first_name last_name db :
  (∃ l, searchUserByUsername (query fold) username db = (Resolved (UserRows l), db)
        ∧ l ⊆+ users db ∧ StronglySorted (username_le fold) l)
  ∧ (∃ l, searchUserByDetails (query fold) username first_name last_name db
          = (Resolved (UserRows l), db)
          ∧ l ⊆+ users db ∧ StronglySorted (username_le fold) l).
Proof.
  split; eexists.
  - split; [apply searchUserByUsername_query|].
    split; [apply ordered_filter_submseteq | apply order_by_username_sorted].
  - split; [apply searchUserByDetails_query|].
    split; [apply ordered_filter_submseteq | apply order_by_username_sorted].
Qed.

(** X18. The [searchUserByUsername] of the first copy of the class
    (lines 84-87) finds the same accounts as the later one, each as often,
    but returns them in store order: the later result is the earlier one
    sorted by handle. *)
Theorem FirstCopy_searchUserByUsername_same_rows fold username db :
  ∃ l1 l2,
    FirstCopy.searchUserByUsername (query fold) username db
    = (Resolved (UserRows l1), db)
    ∧ searchUserByUsername (query fold) username db = (Resolved (UserRows l2), db)
    ∧ l1 `sublist_of` users db
    ∧ l2 ≡ₚ l1
    ∧ l2 = order_by_username fold l1.
Proof.
  do 2 eexists. split; [apply FirstCopy_searchUserByUsername_query|].
  split; [apply searchUserByUsername_query|].
  split; [apply sublist_filter|]. split; [apply order_by_username_perm | done].
Qed.

(** ** A fragment that ends in a backslash *)

Lemma like_tokens_plain_escape f :
  forallb plain_char f = true →
  like_tokens (f ++ [backslash; percent]) = (LikeChar <$> f) ++ [LikeChar percent].
Proof.
  induction f as [|c f IH]; simpl; [done|].
  rewrite andb_true_iff. unfold plain_char at 1.
  rewrite !andb_true_iff, !negb_true_iff. intros [[[-> ->] ->] Hf].
  by rewrite IH.
Qed.

Lemma like_match_exact fold g s :
  like_match fold (LikeChar <$> g) s = true ↔ fold <$> s = fold <$> g.
Proof.
  revert s. induction g as [|c g IH]; intros [|a s]; csimpl; try done.
  rewrite andb_true_iff, Ascii.eqb_eq, IH. split.
  - intros [-> ->]. done.
  - intros H. by injection H as -> ->.
Qed.

(** X19. A fragment that ends in a backslash escapes the closing [%] of the
    pattern: for a fragment otherwise free of metacharacters,
    [searchUserByUsername] with the fragment followed by a backslash returns
    exactly the accounts whose handle ends with the fragment followed by a
    percent sign (characters compared as the collation compares them); a
    handle that merely contains the backslash is not found. *)
Theorem trailing_backslash_escapes_wildcard fold fragment db :
  plain fragment = true →
  ∃ l,
    searchUserByUsername (query fold) (fragment +:+ String backslash EmptyString) db
    = (Resolved (UserRows l), db)
    ∧ ∀ u, u ∈ l ↔
           u ∈ users db
           ∧ ∃ pre rest, chars (User.username u) = pre ++ rest
                         ∧ fold <$> rest = fold <$> (chars fragment ++ [percent]).
Proof.
  intros Hf. eexists. split; [apply searchUserByUsername_query|]. intros u.
  rewrite elem_of_order_by_username, list_elem_of_filter.
  assert (Hlike : ∀ h,
    like fold h ("%" +:+ (fragment +:+ String backslash EmptyString) +:+ "%") = true
    ↔ ∃ pre rest, chars h = pre ++ rest
                  ∧ fold <$> rest = fold <$> (chars fragment ++ [percent])).
  { intros h. unfold like. rewrite !chars_app.
    change (chars "%") with [percent].
    change (chars (String backslash EmptyString)) with [backslash].
    change ([percent] ++ (chars fragment ++ [backslash]) ++ [percent])
      with (percent :: (chars fragment ++ [backslash]) ++ [percent]).
    rewrite <- app_assoc.
    change (like_tokens (percent :: chars fragment ++ [backslash] ++ [percent]))
      with (LikeAny :: like_tokens (chars fragment ++ [backslash; percent])).
    rewrite like_tokens_plain_escape by done.
    change [LikeChar percent] with (LikeChar <$> [percent]).
    rewrite <- fmap_app, like_match_any.
    by setoid_rewrite like_match_exact. }
  rewrite Hlike. tauto.
Qed.

Lemma trailing_backslash_escapes_wildcard_witness :
  plain "0" = true
  ∧ searchUserByUsername (query binary) ("0" +:+ String backslash EmptyString)
      odd_store
    = (Resolved (UserRows [full]), odd_store)
  ∧ searchUserByUsername (query binary)
      (empty_fragment +:+ String backslash EmptyString) odd_store
    = (Resolved (UserRows [full]), odd_store).
Proof.
  destruct (trailing_backslash_escapes_wildcard binary "0" odd_store)
    as (l & Heq & _); [reflexivity|].
  split; [reflexivity|]. split; [|reflexivity].
  rewrite Heq. vm_compute in Heq. by injection Heq as <-.
Defined.

(** * Properties of the HTTP layer *)

(** ** The router *)

Lemma match_deleteByKills_matches_id path params :
  match_path [Lit "users"; Lit "deleteByKills"] path = Some params →
  ∃ params', match_path [Lit "users"; Param "id"] path = Some params'.
Proof.
  destruct path as [|a [|b rest]]; simpl; try discriminate.
  - by destruct (same_segment "users" a).
  - destruct (same_segment "users" a); [|discriminate].
    destruct (same_segment "deleteByKills" b) eqn:Hb; [|discriminate].
    destruct (String.eqb_spec b EmptyString) as [->|_];
      [apply bool_decide_eq_true in Hb; discriminate Hb|].
    intros ->. by eexists.
Qed.

(** X20. No request reaches the route [DELETE /users/deleteByKills]: the
    route [DELETE /users/:id] is registered before it and takes every path
    it would match, [/users/deleteByKills] itself with [id] bound to the text
    [deleteByKills]. Each of the other thirteen routes is reached by some
    request. *)
Theorem deleteByKills_route_is_shadowed :
  (∀ v path r params,
     dispatch v path = Some (r, params) → r ≠ DeleteUsersDeleteByKills)
  ∧ dispatch DELETE ["users"; "deleteByKills"]
    = Some (DeleteUsersId, [("id", "deleteByKills")])
  ∧ (∀ r, r ≠ DeleteUsersDeleteByKills →
          ∃ v path params, dispatch v path = Some (r, params)).
Proof.
  split; [|split; [reflexivity|]].
  - intros v path r params H. unfold dispatch, routes in H.
    destruct v; with_strategy opaque [match_path] (simpl in H);
      repeat match type of H with
        | context [match_path [Lit "users"; Lit "deleteByKills"] path] =>
            destruct (match_path [Lit "users"; Param "id"] path) eqn:Hid;
            [by injection H as <- _|];
            destruct (match_path [Lit "users"; Lit "deleteByKills"] path) eqn:Hk;
            [apply match_deleteByKills_matches_id in Hk as [? Hk]; congruence|]
        | context [match match_path ?p path with _ => _ end] =>
            destruct (match_path p path); [by injection H as <- _|]
        end; discriminate H.
  - intros r Hr.
    destruct r; try done;
      [ exists POST, ["users"] | exists PUT, ["users"; "7"]
      | exists DELETE, ["users"; "7"] | exists GET, ["users"]
      | exists GET, ["users"; "search"] | exists GET, ["users"; "searchByDetails"]
      | exists POST, ["statistics"] | exists PUT, ["statistics"; "7"]
      | exists DELETE, ["statistics"; "7"] | exists GET, ["statistics"]
      | exists GET, ["statistics"; "paginate"] | exists GET, ["statistics"; "search"]
      | exists GET, ["statistics"; "searchByDate"] ];
      by eexists.
Qed.

Lemma deleteByKills_route_is_shadowed_witness :
  dispatch DELETE ["users"; "deleteByKills"; empty_fragment]
  = Some (DeleteUsersId, [("id", "deleteByKills")])
  ∧ DeleteUsersId ≠ DeleteUsersDeleteByKills.
Proof.
  split; [reflexivity|].
  apply (proj1 deleteByKills_route_is_shadowed DELETE
           ["users"; "deleteByKills"; empty_fragment] DeleteUsersId
           [("id", "deleteByKills")]).
  reflexivity.
Defined.

(** ** The local-origin guard *)



(** ** Creating an account over HTTP *)

(** X23. [POST /users] answers 201 and stores the account, with the fields
    of the body, when [validateUser] reports no error; otherwise it answers
    400 with the reported errors and leaves the store as it was. *)
Theorem post_users_creates_valid_accounts_only fold characters b db :
  (validateUser characters b = [] →
   post_users fold characters b db
   = (mkResponse 201 (Send "User created"),
      (createUser (query fold) (user_data b) db).2)
   ∧ new_user (user_data b) db
       ∈ users (createUser (query fold) (user_data b) db).2)
  ∧ (validateUser characters b ≠ [] →
     post_users fold characters b db
     = (mkResponse 400 (JsonErrors (validateUser characters b)), db)).
Proof.
  unfold post_users, handleValidationErrors. split; intros Hv.
  - rewrite decide_True by done. split; [done|].
    rewrite createUser_query. simpl. rewrite elem_of_app. right. by left.
  - by rewrite decide_False.
Qed.

Lemma post_users_creates_valid_accounts_only_witness :
  validateUser ascii_characters carol_body = []
  ∧ post_users binary ascii_characters carol_body seeded
    = (mkResponse 201 (Send "User created"),
       (createUser (query binary) (user_data carol_body) seeded).2)
  ∧ validateUser ascii_characters
      (UserBody.mk None (Some "secret") (Some "Mary-Jane") (Some "Doe"))
    ≠ []
  ∧ (post_users binary ascii_characters
       (UserBody.mk None (Some "secret") (Some "Mary-Jane") (Some "Doe")) seeded).2
    = seeded.
Proof.
  assert (Hok : validateUser ascii_characters carol_body = []) by reflexivity.
  assert (Hbad : validateUser ascii_characters
            (UserBody.mk None (Some "secret") (Some "Mary-Jane") (Some "Doe")) ≠ [])
    by (vm_compute; discriminate).
  destruct (post_users_creates_valid_accounts_only binary ascii_characters
              carol_body seeded) as [Hcreate _].
  destruct (post_users_creates_valid_accounts_only binary ascii_characters
              (UserBody.mk None (Some "secret") (Some "Mary-Jane") (Some "Doe"))
              seeded) as [_ Hrefuse].
  split; [done|]. split; [by apply Hcreate|]. split; [done|].
  by rewrite (Hrefuse Hbad).
Defined.

(** ** Ids that match no row, seen from the routes *)

Section RoutesById.
Variable S : schema.

Lemma ByText_deleteUser_read id n db :
  read_id S id = Some n →
  ByText.deleteUser (query_under S) id db = deleteUser (query_under S) n db.
Proof.
  intros Hn. unfold ByText.deleteUser, deleteUser, query_under.
  cbv beta zeta. unfold pool_query_under.
  cbn [String.eqb Ascii.eqb Bool.eqb]. unfold by_text. by rewrite Hn.
Qed.

Lemma ByText_deleteStatistic_read id n db :
  read_id S id = Some n →
  ByText.deleteStatistic (query_under S) id db
  = deleteStatistic (query (collation S)) n db.
Proof.
  intros Hn. unfold ByText.deleteStatistic, deleteStatistic, query_under, query.
  cbv beta zeta. unfold pool_query_under.
  cbn [String.eqb Ascii.eqb Bool.eqb]. unfold by_text. by rewrite Hn.
Qed.

Lemma ByText_updateUser_read id n data db :
  read_id S id = Some n →
  ByText.updateUser (query_under S) id data db
  = updateUser (query (collation S)) n data db.
Proof.
  intros Hn. unfold ByText.updateUser, updateUser, query_under, query.
  cbv beta zeta. unfold pool_query_under.
  cbn [String.eqb Ascii.eqb Bool.eqb]. unfold by_text. by rewrite Hn.
Qed.

Lemma settle_status ok (p : promise * store) text :
  (∀ r, ok r = mkResponse 200 (Send text)) →
  (settle ok p).1 = mkResponse 200 (Send text)
  ∨ ∃ err, (settle ok p).1 = mkResponse 500 (Send err).
Proof.
  intros Hok. destruct p as [[r|err] db']; simpl; [by left | right; by exists err].
Qed.
End RoutesById.

(** X24. The routes by id never report a missing row. Whatever the text of
    [:id] and whatever the schema, [DELETE /users/:id] and
    [DELETE /statistics/:id] answer 200 with their fixed text or 500 with
    the store's message, and so does [PUT /users/:id] on a body that passes
    validation. When the store reads the text as an integer that no row
    carries, they answer 200 and leave the store as it was. When it reads it
    as the id of an account that has an activity record and the foreign key
    restricts, [DELETE /users/:id] answers 500 and leaves the store as it
    was. *)
Theorem routes_by_id_never_report_a_missing_row S characters id b db :
  ((delete_users_id S id db).1 = mkResponse 200 (Send "User deleted")
   ∨ ∃ err, (delete_users_id S id db).1 = mkResponse 500 (Send err))
  ∧ ((delete_statistics_id S id db).1 = mkResponse 200 (Send "Statistic deleted")
     ∨ ∃ err, (delete_statistics_id S id db).1 = mkResponse 500 (Send err))
  ∧ (validateUser characters b = [] →
     (put_users_id S characters id b db).1 = mkResponse 200 (Send "User updated")
     ∨ ∃ err, (put_users_id S characters id b db).1 = mkResponse 500 (Send err))
  ∧ (∀ n, read_id S id = Some n →
       ((∀ u, u ∈ users db → User.id u ≠ n) →
        (validateUser characters b = [] →
         put_users_id S characters id b db
         = (mkResponse 200 (Send "User updated"), db))
        ∧ delete_users_id S id db = (mkResponse 200 (Send "User deleted"), db))
       ∧ ((∀ r, r ∈ statistics db → Statistic.id r ≠ n) →
          delete_statistics_id S id db
          = (mkResponse 200 (Send "Statistic deleted"), db))
       ∧ (foreign_key S = OnDeleteRestrict →
          (∃ u r, u ∈ users db ∧ User.id u = n
                  ∧ r ∈ statistics db ∧ Statistic.user_id r = n) →
          delete_users_id S id db
          = (mkResponse 500 (Send ER_ROW_IS_REFERENCED), db))).
Proof.
  unfold delete_users_id, delete_statistics_id, put_users_id,
    handleValidationErrors.
  split; [by apply settle_status|]. split; [by apply settle_status|].
  split; [intros Hv; rewrite decide_True by done; by apply settle_status|].
  intros n Hn. split; [|split].
  - intros Hno. split.
    + intros Hv. rewrite decide_True by done.
      rewrite (ByText_updateUser_read S id n) by done.
      by rewrite updateUser_no_match.
    + rewrite (ByText_deleteUser_read S id n) by done.
      rewrite deleteUser_under. unfold delete_users_under.
      rewrite (filter_none (λ u, User.id u = n)) by done.
      rewrite (filter_all (λ u, ¬ User.id u = n)) by done. simpl.
      rewrite (filter_all (λ r : Statistic.t, Statistic.user_id r ∉ [])).
      2: { intros r _. apply not_elem_of_nil. }
      destruct (foreign_key S); simpl; [by destruct db | by destruct db |].
      rewrite decide_False; [by destruct db|].
      rewrite Exists_exists. intros (r & _ & Hr). by apply elem_of_nil in Hr.
  - intros Hno. rewrite (ByText_deleteStatistic_read S id n) by done.
    by rewrite deleteStatistic_no_match.
  - intros Hfk Hchild. rewrite (ByText_deleteUser_read S id n) by done.
    rewrite deleteUser_under. unfold delete_users_under. rewrite Hfk.
    rewrite decide_True; [done|]. rewrite Exists_exists.
    destruct Hchild as (u & r & Hu & Hid & Hr & Hrid). exists r.
    split; [done|]. apply (orphaned_iff (λ u, User.id u = n)). exists u.
    split; [done|]. split; congruence.
Qed.

Lemma routes_by_id_never_report_a_missing_row_witness :
  read_id (strict_schema OnDeleteRestrict) "9" = Some 9%Z
  ∧ (∀ u, u ∈ users seeded → User.id u ≠ 9%Z)
  ∧ validateUser ascii_characters carol_body = []
  ∧ put_users_id (strict_schema OnDeleteRestrict) ascii_characters "9" carol_body
      seeded
    = (mkResponse 200 (Send "User updated"), seeded)
  ∧ delete_users_id (strict_schema OnDeleteRestrict) "9" seeded
    = (mkResponse 200 (Send "User deleted"), seeded)
  ∧ delete_users_id (strict_schema OnDeleteRestrict) "1" seeded
    = (mkResponse 500 (Send ER_ROW_IS_REFERENCED), seeded)
  ∧ delete_users_id (strict_schema OnDeleteRestrict) "deleteByKills" seeded
    = (mkResponse 500 (Send "ER_TRUNCATED_WRONG_VALUE"), seeded).
Proof.
  assert (Hread : read_id (strict_schema OnDeleteRestrict) "9" = Some 9%Z)
    by reflexivity.
  assert (Hok : validateUser ascii_characters carol_body = []) by reflexivity.
  assert (Hu : ∀ u, u ∈ users seeded → User.id u ≠ 9%Z).
  { intros u Hu. simpl in Hu.
    repeat (apply elem_of_cons in Hu as [->|Hu]; [done|]).
    by apply elem_of_nil in Hu. }
  destruct (routes_by_id_never_report_a_missing_row
              (strict_schema OnDeleteRestrict) ascii_characters "9" carol_body
              seeded) as (_ & _ & _ & Hnine).
  destruct (Hnine 9%Z Hread) as ((Hput & Hdel) & _); [done|].
  split; [done|]. split; [done|]. split; [done|].
  split; [by apply Hput|]. split; [done|]. split; reflexivity.
Defined.

(** ** A missing search parameter *)

(** X26. [GET /users/search] without a [username] parameter searches for
    the text [undefined]: it answers with the accounts whose handle contains
    [undefined], not with every account. [GET /users/searchByDetails] without
    any parameter answers with every account. *)
Theorem search_without_parameter fold db :
  get_users_search fold None db = get_users_search fold (Some "undefined") db
  ∧ (∃ l, get_users_search fold None db
          = (mkResponse 200 (Json (UserRows l)), db)
          ∧ ∀ u, u ∈ l ↔ u ∈ users db
                         ∧ contains fold (User.username u) "undefined")
  ∧ (∃ l, get_users_searchByDetails fold None None None db
          = (mkResponse 200 (Json (UserRows l)), db)
          ∧ l ≡ₚ users db).
Proof.
  split; [done|]. split; eexists.
  - unfold get_users_search. rewrite searchUserByUsername_query. simpl.
    split; [done|]. by apply searchUserByUsername_rows.
  - unfold get_users_searchByDetails. rewrite searchUserByDetails_query. simpl.
    split; [done|]. rewrite order_by_username_perm.
    rewrite filter_all; [done|]. intros u _.
    change (field None) with empty_fragment.
    by rewrite !like_empty_fragment.
Qed.
